(** * An ARM7TDMI emulator core: decoder and three-stage pipeline

    A shallow embedding of the JavaScript sources of the emulator:
    the static class [Decoder] (instruction word to positional descriptor
    array) and the class [ARM7TDMI] (register file, status flags, the
    fetch / decode / execute pipeline and the instruction handlers),
    followed by the properties stated about them.

    JavaScript numbers are modelled by [Z]: every number this program
    computes is an integer far below 2^53, where doubles are exact.  The
    negative zero produced by [-offset] on a zero offset is identified
    with zero; no operation of the program tells them apart. *)

From Stdlib Require Import ZArith Lia Bool.
From stdpp Require Import base gmap strings list pretty.

Local Open Scope Z_scope.

(** ** JavaScript values and operators *)

Module JS.

(** The values that flow through the emulator: numbers, the strings
    used as opcode tags and register names, the booleans carried by a
    data-transfer descriptor, and [undefined] (a missing array element
    or object property). *)
Inductive value : Type :=
| VUndef
| VNaN
| VNum (n : Z)
| VStr (s : string)
| VBool (b : bool).

(** [ToNumber]; [None] stands for NaN.  The only strings the program
    builds are opcode tags and register names ([r0] ... [r15]), none of
    which reads as a numeric literal, so a string converts to NaN. *)
Definition ToNumber (v : value) : option Z :=
  match v with
  | VNum n => Some n
  | VBool true => Some 1
  | VBool false => Some 0
  | VUndef | VNaN | VStr _ => None
  end.

(** Wrap-around to the signed and to the unsigned 32-bit range. *)
Definition to_int32 (n : Z) : Z := (n + 2 ^ 31) mod 2 ^ 32 - 2 ^ 31.
Definition to_uint32 (n : Z) : Z := n mod 2 ^ 32.

Definition ToInt32 (v : value) : Z :=
  match ToNumber v with Some n => to_int32 n | None => 0 end.
Definition ToUint32 (v : value) : Z :=
  match ToNumber v with Some n => to_uint32 n | None => 0 end.

(** Shift operators use the low five bits of the right operand. *)
Definition shift_count (v : value) : Z := Z.land (ToUint32 v) 31.

(** [a >>> b] *)
Definition ushr (a b : value) : value :=
  VNum (Z.shiftr (ToUint32 a) (shift_count b)).
(** [a << b] *)
Definition shl (a b : value) : value :=
  VNum (to_int32 (Z.shiftl (ToInt32 a) (shift_count b))).
(** [a & b], [a | b], [a ^ b]: operands and result are signed 32-bit. *)
Definition band (a b : value) : value := VNum (Z.land (ToInt32 a) (ToInt32 b)).
Definition bor (a b : value) : value := VNum (Z.lor (ToInt32 a) (ToInt32 b)).
Definition bxor (a b : value) : value := VNum (Z.lxor (ToInt32 a) (ToInt32 b)).

Definition arith (f : Z -> Z -> Z) (a b : value) : value :=
  match ToNumber a, ToNumber b with
  | Some x, Some y => VNum (f x y)
  | _, _ => VNaN
  end.

(** [a + b] on operands that are never strings in this program,
    [a - b], [a * b] and unary minus. *)
Definition add : value -> value -> value := arith Z.add.
Definition sub : value -> value -> value := arith Z.sub.
Definition mul : value -> value -> value := arith Z.mul.
Definition neg (a : value) : value :=
  match ToNumber a with Some x => VNum (- x) | None => VNaN end.

(** [a < b] and [a > b] on numbers; a comparison with NaN is false. *)
Definition lt (a b : value) : bool :=
  match ToNumber a, ToNumber b with
  | Some x, Some y => x <? y
  | _, _ => false
  end.
Definition gt (a b : value) : bool := lt b a.

(** [a === b] *)
Definition strict_eq (a b : value) : bool :=
  match a, b with
  | VUndef, VUndef => true
  | VNum x, VNum y => x =? y
  | VStr s, VStr t => bool_decide (s = t)
  | VBool x, VBool y => eqb x y
  | _, _ => false
  end.

(** Truthiness, as tested by [if] and by [?:]. *)
Definition truthy (v : value) : bool :=
  match v with
  | VUndef | VNaN => false
  | VNum n => negb (n =? 0)
  | VStr s => negb (bool_decide (s = ""%string))
  | VBool b => b
  end.

(** [ToString], used by template literals. *)
Definition ToString (v : value) : string :=
  match v with
  | VUndef => "undefined"
  | VNaN => "NaN"
  | VNum n => pretty n
  | VStr s => s
  | VBool true => "true"
  | VBool false => "false"
  end.

(** [a[i]]: a missing element reads as [undefined]. *)
Definition index (a : list value) (i : nat) : value := default VUndef (a !! i).

End JS.

Import JS.

(** ** Collaborators that the core imports *)

(** Modelled from the spec: the constants module is not among the
    sources; the spec fixes the instruction width ([pc + 4] per fetch,
    [pc + 8] being two instruction widths ahead). *)
Definition ARM_INSTR_LENGTH : value := VNum 4.

Module Utils.

(** Modelled from the spec: [Utils.toSigned] is not among the sources.
    The spec has arithmetic that needs a sign reinterpret the bits of a
    32-bit word as two's complement, and the core applies this helper to
    whole registers and to a 32-bit difference. *)
Definition toSigned (word : value) : value := VNum (ToInt32 word).

(** Modelled from the spec: [Utils.ror] is not among the sources.  The
    barrel-shifter rotate, the standard rotate right by [shift] bits of
    a 32-bit value, with an unsigned result. *)
Definition ror (word shift : value) : value :=
  let w := ToUint32 word in
  let n := shift_count shift in
  VNum (Z.lor (Z.shiftr w n) (to_uint32 (Z.shiftl w (32 - n)))).

End Utils.

(** Events received by the diagnostics sink.  [Logger] is a passive
    observer, so an emission is recorded and nothing else happens.  The
    text of the decoder's error is rendered by [Utils.toHex], which is not
    among the sources; the event keeps the opcode value itself. *)
Inductive event : Type :=
| Fetched (addr word : value)
| Instr (pc op : value) (args : list value)
| Info (msg : string)
| ErrorUnknownDataProc (opcode : value).

(** A call either returns or throws a JavaScript [Error]. *)
Inductive outcome (A : Type) : Type :=
| Ok (a : A)
| Throw (msg : string).
Arguments Ok {A} a.
Arguments Throw {A} msg.

(** ** The decoder *)

Module Decoder.

Definition _decodeUnknown (pc : value) : list value := [pc; VStr "???"].

Definition _decodeBranch (word pc : value) : list value :=
  let offset := band word (VNum 0x00ffffff) in
  [pc; VStr "b";
   add (add pc (mul ARM_INSTR_LENGTH (VNum 2)))
       (mul (Utils.toSigned offset) (VNum 4))].

(** The [switch] on the data-processing opcode; a [case] label is
    compared with [===]. *)
Definition dataProcOp (opcode : value) : option string :=
  if strict_eq opcode (VNum 9) then Some "teq"%string
  else if strict_eq opcode (VNum 0xa) then Some "cmp"%string
  else if strict_eq opcode (VNum 0xd) then Some "mov"%string
  else None.

(** [`r${n}`] *)
Definition regName (n : value) : value := VStr ("r" +:+ ToString n).

Definition _decodeDataProc (word pc : value) : list event * outcome (list value) :=
  let opcode := band (ushr word (VNum 21)) (VNum 0xf) in
  match dataProcOp opcode with
  | None => ([ErrorUnknownDataProc opcode], Ok (_decodeUnknown pc))
  | Some op =>
      (* [word >>> 25 & 1 === 1] parses as [(word >>> 25) & (1 === 1)] *)
      let immediate := band (ushr word (VNum 25)) (VBool (strict_eq (VNum 1) (VNum 1))) in
      let Rn := regName (band (ushr word (VNum 16)) (VNum 0xf)) in
      let Rd := regName (band (ushr word (VNum 12)) (VNum 0xf)) in
      if truthy immediate then
        let Op2 := Utils.ror (band word (VNum 0xff))
                             (mul (band (ushr word (VNum 8)) (VNum 0xf)) (VNum 2)) in
        ([], Ok [pc; VStr op; Rd; Rn; Op2])
      else ([], Throw "TODO: Op2 is a register")
  end.

Definition _decodeDataTransfer (word pc : value) : list event * outcome (list value) :=
  let I := strict_eq (band (ushr word (VNum 25)) (VNum 1)) (VNum 1) in
  let P := strict_eq (band (ushr word (VNum 24)) (VNum 1)) (VNum 1) in
  let U := strict_eq (band (ushr word (VNum 23)) (VNum 1)) (VNum 1) in
  let op := if strict_eq (band (ushr word (VNum 20)) (VNum 1)) (VNum 1)
            then "ldr"%string else "str"%string in
  let Rn := regName (band (ushr word (VNum 16)) (VNum 0xf)) in
  let Rd := regName (band (ushr word (VNum 12)) (VNum 0xf)) in
  if negb I then
    let offset := band word (VNum 0xfff) in
    let offset := if negb U then neg offset else offset in
    ([], Ok [pc; VStr op; Rd; Rn; VBool P; offset])
  else ([], Throw "Shifted register").

Definition decode (word pc : value) : list event * outcome (list value) :=
  let class := band (ushr word (VNum 24)) (VNum 0xf) in
  if strict_eq class (VNum 0xa) then ([], Ok (_decodeBranch word pc))
  else if strict_eq class (VNum 0) || strict_eq class (VNum 1)
          || strict_eq class (VNum 2) || strict_eq class (VNum 3)
  then _decodeDataProc word pc
  else if strict_eq class (VNum 4) || strict_eq class (VNum 5)
  then _decodeDataTransfer word pc
  else ([], Ok (_decodeUnknown pc)).

End Decoder.

(** ** The processor core *)

Module Core.

(** The instance fields of [ARM7TDMI].  [_r] is the JavaScript object
    holding the general registers together with [pc], [cpsr] and [sprs];
    a key it lacks reads as [undefined] and a write adds the key.
    [_mmu] is the word read of the memory collaborator.  [_branched] is
    first assigned by the branch handler and is [undefined] before.
    [log] collects what the diagnostics sink received. *)
Record ARM7TDMI : Type := mkCore {
  _mmu : value -> value;
  _r : gmap string value;
  _fetched : option (list value);
  _decoded : option (list value);
  _branched : value;
  log : list event
}.

Definition with_r (r : gmap string value) (s : ARM7TDMI) : ARM7TDMI :=
  mkCore (_mmu s) r (_fetched s) (_decoded s) (_branched s) (log s).
Definition with_fetched (f : option (list value)) (s : ARM7TDMI) : ARM7TDMI :=
  mkCore (_mmu s) (_r s) f (_decoded s) (_branched s) (log s).
Definition with_decoded (d : option (list value)) (s : ARM7TDMI) : ARM7TDMI :=
  mkCore (_mmu s) (_r s) (_fetched s) d (_branched s) (log s).
Definition with_branched (b : value) (s : ARM7TDMI) : ARM7TDMI :=
  mkCore (_mmu s) (_r s) (_fetched s) (_decoded s) b (log s).
Definition emit (e : event) (s : ARM7TDMI) : ARM7TDMI :=
  mkCore (_mmu s) (_r s) (_fetched s) (_decoded s) (_branched s) (log s ++ [e]).

(** [this._r[k]] and [this._r[k] = v] *)
Definition reg (s : ARM7TDMI) (k : string) : value := default VUndef (_r s !! k).
Definition set_reg (k : string) (v : value) (s : ARM7TDMI) : ARM7TDMI :=
  with_r (<[k := v]> (_r s)) s.

(** A method call either returns or is cut short by an [Error] thrown
    inside it; the instance keeps the state reached at that point. *)
Inductive completion : Type :=
| Normal (s : ARM7TDMI)
| Abrupt (msg : string) (s : ARM7TDMI).

Definition andThen (c : completion) (k : ARM7TDMI -> completion) : completion :=
  match c with
  | Normal s => k s
  | Abrupt msg s => Abrupt msg s
  end.

(** The constructor. *)
Definition initial_registers : gmap string value :=
  list_to_map
    (map (fun k : string => (k, VNum 0))
         ["r0"; "r1"; "r2"; "r3"; "r4"; "r5"; "r6"; "r7"; "r8"; "r9"; "r10";
          "r11"; "r12"; "r13"; "r14"; "pc"; "cpsr"; "sprs"]%string).

Definition new (MMU : value -> value) : ARM7TDMI :=
  mkCore MMU initial_registers None None VUndef [].

(** *** Accessors *)

Definition getPC (s : ARM7TDMI) : value := reg s "pc".
Definition getRegisters (s : ARM7TDMI) : gmap string value := _r s.
Definition getCPSR (s : ARM7TDMI) : value := reg s "cpsr".
Definition getNZCV (s : ARM7TDMI) : value := ushr (reg s "cpsr") (VNum 28).
Definition setNZCV (bits : value) (s : ARM7TDMI) : ARM7TDMI :=
  set_reg "cpsr"
    (ushr (bor (band (reg s "cpsr") (VNum 0x07ffffff)) (shl bits (VNum 28))) (VNum 0)) s.
Definition getIFT (s : ARM7TDMI) : value := ushr (reg s "cpsr") (VNum 5).
Definition setIFT (bits : value) (s : ARM7TDMI) : ARM7TDMI :=
  set_reg "cpsr"
    (ushr (bor (band (reg s "cpsr") (VNum 0xffffff1f)) (shl bits (VNum 5))) (VNum 0)) s.

(** *** Flag setters: [set ? cpsr |= bit : cpsr &= mask] *)

Definition _setN (set : bool) (s : ARM7TDMI) : ARM7TDMI :=
  if set then set_reg "cpsr" (bor (reg s "cpsr") (VNum 0x80000000)) s
  else set_reg "cpsr" (band (reg s "cpsr") (VNum 0x7fffffff)) s.
Definition _setZ (set : bool) (s : ARM7TDMI) : ARM7TDMI :=
  if set then set_reg "cpsr" (bor (reg s "cpsr") (VNum 0x40000000)) s
  else set_reg "cpsr" (band (reg s "cpsr") (VNum 0xbfffffff)) s.
Definition _setC (set : bool) (s : ARM7TDMI) : ARM7TDMI :=
  if set then set_reg "cpsr" (bor (reg s "cpsr") (VNum 0x20000000)) s
  else set_reg "cpsr" (band (reg s "cpsr") (VNum 0xdfffffff)) s.
Definition _setV (set : bool) (s : ARM7TDMI) : ARM7TDMI :=
  if set then set_reg "cpsr" (bor (reg s "cpsr") (VNum 0x10000000)) s
  else set_reg "cpsr" (band (reg s "cpsr") (VNum 0xefffffff)) s.

(** *** Instruction handlers

    A handler is applied to the operands left in the descriptor array;
    a parameter beyond the end of the array is [undefined].  A register
    operand is a property key of [_r]. *)

Definition _nop (args : list value) (s : ARM7TDMI) : ARM7TDMI := s.

Definition _b (args : list value) (s : ARM7TDMI) : ARM7TDMI :=
  let addr := index args 0 in
  with_branched (VBool true) (set_reg "pc" addr s).

Definition _cmp (args : list value) (s : ARM7TDMI) : ARM7TDMI :=
  let Rn := ToString (index args 1) in
  let Op2 := index args 2 in
  let sRn := Utils.toSigned (reg s Rn) in
  let diff := sub sRn Op2 in
  let s := _setN (lt (Utils.toSigned diff) (VNum 0)) s in
  let s := _setZ (strict_eq diff (VNum 0)) s in
  let s := _setC (negb (gt Op2 (reg s Rn))) s in
  _setV (lt diff (VNum (-2147483648))) s.

Definition _mov (args : list value) (s : ARM7TDMI) : ARM7TDMI :=
  let Rd := ToString (index args 0) in
  let Op2 := index args 2 in
  let s := set_reg Rd Op2 s in
  _setZ (strict_eq Op2 (VNum 0)) s.

Definition _ldr (args : list value) (s : ARM7TDMI) : ARM7TDMI :=
  let Rd := ToString (index args 0) in
  let Rn := ToString (index args 1) in
  let P := index args 2 in
  let offset := index args 3 in
  if truthy P then set_reg Rd (_mmu s (add (reg s Rn) offset)) s
  else s.

Definition _teq (args : list value) (s : ARM7TDMI) : ARM7TDMI :=
  let Rn := ToString (index args 1) in
  let Op2 := index args 2 in
  let xor := ushr (bxor (reg s Rn) Op2) (VNum 0) in
  _setZ (strict_eq xor (VNum 0)) s.

(** The dispatch table built by the constructor.  It is looked up with
    the tag of a descriptor; every tag the decoder produces is one of
    its six keys or ["str"]. *)
Definition _opcodes (op : string) : option (list value -> ARM7TDMI -> ARM7TDMI) :=
  if bool_decide (op = "???"%string) then Some _nop
  else if bool_decide (op = "b"%string) then Some _b
  else if bool_decide (op = "cmp"%string) then Some _cmp
  else if bool_decide (op = "mov"%string) then Some _mov
  else if bool_decide (op = "ldr"%string) then Some _ldr
  else if bool_decide (op = "teq"%string) then Some _teq
  else None.

(** *** Pipeline phases *)

Definition _fetch (s : ARM7TDMI) : ARM7TDMI :=
  let readFrom :=
    match _decoded s with
    | Some d =>
        if strict_eq (index d 1) (VStr "b") then index d 2
        else if truthy (_branched s) then add (reg s "pc") ARM_INSTR_LENGTH
        else reg s "pc"
    | None =>
        if truthy (_branched s) then add (reg s "pc") ARM_INSTR_LENGTH
        else reg s "pc"
    end in
  let s := if truthy (_branched s)
           then set_reg "pc" (add (reg s "pc") (VNum 4)) (with_branched (VBool false) s)
           else s in
  let word := _mmu s readFrom in
  let s := with_fetched (Some [readFrom; word]) s in
  let s := emit (Fetched readFrom word) s in
  set_reg "pc" (add (reg s "pc") (VNum 4)) s.

(** [Decoder.decode(...this._fetched)]: the elements of the fetch
    record are spread over the parameters of [decode] in order, the
    first element to [word] and the second to [pc]. *)
Definition decode_fetched (f : list value) : list event * outcome (list value) :=
  Decoder.decode (index f 0) (index f 1).

Definition emit_all (evs : list event) (s : ARM7TDMI) : ARM7TDMI :=
  fold_left (fun acc e => emit e acc) evs s.

Definition _decode (s : ARM7TDMI) : completion :=
  match _fetched s with
  | None => Normal s
  | Some f =>
      match decode_fetched f with
      | (evs, Ok d) => Normal (with_decoded (Some d) (emit_all evs s))
      | (evs, Throw msg) => Abrupt msg (emit_all evs s)
      end
  end.

(** The two [splice(0, 1)[0]] calls take [pc] and [op] off the front of
    the descriptor array, which stays in the [_decoded] slot with the
    operands only. *)
Definition _execute (s : ARM7TDMI) : ARM7TDMI :=
  match _decoded s with
  | None => s
  | Some d =>
      let pc := index d 0 in
      let d := drop 1 d in
      let op := index d 0 in
      let d := drop 1 d in
      let s := with_decoded (Some d) s in
      match _opcodes (ToString op) with
      | Some handler => handler d (emit (Instr pc op d) s)
      | None => emit (Info (ToString op +:+ " unimplemented")) s
      end
  end.

(** *** Public operations *)

Definition boot (s : ARM7TDMI) : completion :=
  andThen (_decode (_fetch s)) (fun s => Normal (_fetch s)).

Definition execute (s : ARM7TDMI) : completion :=
  andThen (_decode (_execute s)) (fun s => Normal (_fetch s)).

End Core.

Import Core.


(** ** Fields of an instruction word *)

(** Bits [27:24], the instruction class; bits [24:21], the
    data-processing opcode; bits [23:0], the branch offset field. *)
Definition class_of (w : Z) : Z := Z.land (Z.shiftr w 24) 0xf.
Definition opcode_of (w : Z) : Z := Z.land (Z.shiftr w 21) 0xf.
Definition offset24 (w : Z) : Z := Z.land w 0xffffff.

(** Two's-complement sign extension from 24 bits, as the branch offset
    law words it. *)
Definition sign_extend_24 (f : Z) : Z := if Z.testbit f 23 then f - 2 ^ 24 else f.

(** The opcodes the data-processing decoder maps to an operation. *)
Definition recognized (opcode : Z) : bool :=
  (opcode =? 9) || (opcode =? 0xa) || (opcode =? 0xd).

(** The descriptors as the tagged variant they encode. *)
Inductive descriptor : list value -> Prop :=
| DUnknown pc : descriptor [pc; VStr "???"]
| DBranch pc target : descriptor [pc; VStr "b"; target]
| DDataProc pc (op : string) rd rn op2 :
    op ∈ ["teq"; "cmp"; "mov"]%string ->
    descriptor [pc; VStr op; Decoder.regName rd; Decoder.regName rn; op2]
| DTransfer pc (op : string) rd rn p offset :
    op ∈ ["ldr"; "str"]%string ->
    descriptor [pc; VStr op; Decoder.regName rd; Decoder.regName rn; VBool p; offset].

(** ** The branch decoder and the helper it imports *)

(** [_decodeBranch] and [decode] with the sign helper of the branch
    decoder, [Utils.toSigned], taken as a parameter; with the model of the
    helper used for registers they are [Decoder._decodeBranch] and
    [Decoder.decode]. *)
Definition _decodeBranch_with (toSigned : value -> value) (word pc : value) : list value :=
  let offset := band word (VNum 0x00ffffff) in
  [pc; VStr "b";
   add (add pc (mul ARM_INSTR_LENGTH (VNum 2)))
       (mul (toSigned offset) (VNum 4))].

Definition decode_with (toSigned : value -> value) (word pc : value)
  : list event * outcome (list value) :=
  let class := band (ushr word (VNum 24)) (VNum 0xf) in
  if strict_eq class (VNum 0xa) then ([], Ok (_decodeBranch_with toSigned word pc))
  else if strict_eq class (VNum 0) || strict_eq class (VNum 1)
          || strict_eq class (VNum 2) || strict_eq class (VNum 3)
  then Decoder._decodeDataProc word pc
  else if strict_eq class (VNum 4) || strict_eq class (VNum 5)
  then Decoder._decodeDataTransfer word pc
  else ([], Ok (Decoder._decodeUnknown pc)).


(** ** Reading the status register *)

(** Bit [i] of [cpsr], read as an unsigned 32-bit word; the condition
    flags Negative, Zero, Carry and Overflow are bits 31 to 28. *)
Definition cpsr_bit (s : ARM7TDMI) (i : Z) : bool := Z.testbit (ToUint32 (getCPSR s)) i.

Definition nzcv (s : ARM7TDMI) : bool * bool * bool * bool :=
  (cpsr_bit s 31, cpsr_bit s 30, cpsr_bit s 29, cpsr_bit s 28).

(** The flags the compare law announces for a register value [rn] and an
    operand [op2], with both reinterpreted as signed before the
    subtraction. *)
Definition cmp_flags_claimed (rn op2 : Z) : bool * bool * bool * bool :=
  let diff := to_int32 rn - to_int32 op2 in
  (to_int32 diff <? 0, diff =? 0, negb (op2 >? rn), diff <? - 2 ^ 31).

(** ** Decoding and executing one instruction *)

(** Decoding a word and then executing the descriptor obtained, the way
    the pipeline does it: the decode phase leaves the descriptor in the
    [_decoded] slot and the execute phase takes it from there. *)
Definition decode_then_execute (word pc : value) (s : ARM7TDMI) : completion :=
  match Decoder.decode word pc with
  | (evs, Ok d) => Normal (_execute (with_decoded (Some d) (emit_all evs s)))
  | (evs, Throw msg) => Abrupt msg (emit_all evs s)
  end.

(** The address read by the last fetch. *)
Definition fetch_address (s : ARM7TDMI) : option value :=
  match _fetched s with Some f => Some (index f 0) | None => None end.

(** ** Driving the core *)

(** The host calling [execute] [n] more times, as long as no call
    throws. *)
Definition steps (n : nat) (c : completion) : completion :=
  Nat.iter n (fun c => andThen c execute) c.

(** The host calling [execute] again on the same instance, whether or
    not the previous call threw. *)
Definition resume (c : completion) : completion :=
  match c with
  | Normal s => execute s
  | Abrupt _ s => execute s
  end.



(** ** Facts about the 32-bit conversions and the bit operators *)

Section Conversions.

Lemma ToInt32_num n : ToInt32 (VNum n) = to_int32 n.
Proof. reflexivity. Qed.

Lemma ToUint32_num n : ToUint32 (VNum n) = to_uint32 n.
Proof. reflexivity. Qed.

Lemma to_uint32_range n : 0 <= to_uint32 n < 2 ^ 32.
Proof. unfold to_uint32. apply Z.mod_pos_bound. lia. Qed.

Lemma to_int32_range n : - 2 ^ 31 <= to_int32 n < 2 ^ 31.
Proof.
  unfold to_int32.
  pose proof (Z.mod_pos_bound (n + 2 ^ 31) (2 ^ 32)). lia.
Qed.

Lemma to_uint32_small n : 0 <= n < 2 ^ 32 -> to_uint32 n = n.
Proof. intros H. unfold to_uint32. apply Z.mod_small. exact H. Qed.

Lemma to_int32_small n : - 2 ^ 31 <= n < 2 ^ 31 -> to_int32 n = n.
Proof. intros H. unfold to_int32. rewrite Z.mod_small; lia. Qed.

(** Both conversions keep the low 32 bits. *)
Lemma testbit_to_uint32 n i : 0 <= i < 32 -> Z.testbit (to_uint32 n) i = Z.testbit n i.
Proof. intros H. unfold to_uint32. apply Z.mod_pow2_bits_low. lia. Qed.

Lemma to_int32_mod n : to_int32 n mod 2 ^ 32 = n mod 2 ^ 32.
Proof.
  unfold to_int32.
  rewrite Zminus_mod_idemp_l.
  f_equal. lia.
Qed.

Lemma testbit_to_int32 n i : 0 <= i < 32 -> Z.testbit (to_int32 n) i = Z.testbit n i.
Proof.
  intros H.
  rewrite <- (Z.mod_pow2_bits_low (to_int32 n) 32 i) by lia.
  rewrite <- (Z.mod_pow2_bits_low n 32 i) by lia.
  now rewrite to_int32_mod.
Qed.

Lemma testbit_ToInt32 v i : 0 <= i < 32 -> Z.testbit (ToInt32 v) i = Z.testbit (ToUint32 v) i.
Proof.
  intros H. unfold ToInt32, ToUint32.
  destruct (ToNumber v); [|reflexivity].
  now rewrite testbit_to_int32, testbit_to_uint32.
Qed.

Lemma testbit_high n i : 0 <= n < 2 ^ 32 -> 32 <= i -> Z.testbit n i = false.
Proof.
  intros Hn Hi.
  rewrite <- (Z.mod_small n (2 ^ 32)) by exact Hn.
  apply Z.mod_pow2_bits_high. lia.
Qed.

(** Masking with an unsigned 32-bit constant does not see the
    conversion of the other operand. *)
Lemma land_to_int32_l n m : 0 <= m < 2 ^ 32 -> Z.land (to_int32 n) m = Z.land n m.
Proof.
  intros Hm. apply Z.bits_inj'. intros i Hi.
  rewrite !Z.land_spec.
  destruct (Z.lt_ge_cases i 32).
  - now rewrite testbit_to_int32 by lia.
  - rewrite (testbit_high m i) by lia. now rewrite !andb_false_r.
Qed.

Lemma shift_count_small n : 0 <= n < 32 -> shift_count (VNum n) = n.
Proof.
  intros H. unfold shift_count. rewrite ToUint32_num.
  rewrite to_uint32_small by lia.
  change 31 with (Z.ones 5). rewrite Z.land_ones by lia.
  apply Z.mod_small. change (2 ^ 5) with 32. lia.
Qed.

(** [word >>> k & m] on a 32-bit word: the field of [word] selected by
    the shift and the mask. *)
Lemma band_ushr w k m :
  0 <= w < 2 ^ 32 -> 0 <= k < 32 -> 0 <= m < 2 ^ 31 ->
  band (ushr (VNum w) (VNum k)) (VNum m) = VNum (Z.land (Z.shiftr w k) m).
Proof.
  intros Hw Hk Hm. unfold band, ushr.
  rewrite !ToInt32_num, ToUint32_num.
  rewrite shift_count_small by exact Hk.
  rewrite (to_uint32_small w) by exact Hw.
  rewrite (to_int32_small m) by lia.
  rewrite land_to_int32_l by lia. reflexivity.
Qed.

Lemma band_mask w m :
  0 <= m < 2 ^ 31 -> band (VNum w) (VNum m) = VNum (Z.land w m).
Proof.
  intros Hm. unfold band. rewrite !ToInt32_num.
  rewrite (to_int32_small m) by lia.
  rewrite land_to_int32_l by lia. reflexivity.
Qed.

Lemma land_mask_range a k : 0 <= k -> 0 <= Z.land a (Z.ones k) < 2 ^ k.
Proof.
  intros Hk. rewrite Z.land_ones by exact Hk.
  apply Z.mod_pos_bound. apply Z.pow_pos_nonneg; lia.
Qed.

(** A one-bit field is the tested bit. *)
Lemma land_shiftr_1 w k : 0 <= k -> Z.land (Z.shiftr w k) 1 = Z.b2z (Z.testbit w k).
Proof.
  intros Hk. change 1 with (Z.ones 1). rewrite Z.land_ones by lia.
  change (2 ^ 1) with 2. rewrite <- Z.bit0_mod.
  rewrite Z.shiftr_spec by lia. reflexivity.
Qed.

Lemma strict_eq_num a b : strict_eq (VNum a) (VNum b) = (a =? b).
Proof. reflexivity. Qed.

Lemma strict_eq_tag v (t : string) : strict_eq v (VStr t) = true <-> v = VStr t.
Proof.
  destruct v; simpl; try (split; [discriminate | congruence]).
  rewrite bool_decide_eq_true. split; congruence.
Qed.

Lemma strict_eq_tag_ne v (t : string) : v <> VStr t -> strict_eq v (VStr t) = false.
Proof.
  intros H. destruct (strict_eq v (VStr t)) eqn:E; [|reflexivity].
  apply strict_eq_tag in E. contradiction.
Qed.

End Conversions.

Section DecoderFacts.

Import Decoder.

Variable w : Z.
Variable pc : value.
Hypothesis Hw : 0 <= w < 2 ^ 32.

Lemma class_of_range : 0 <= class_of w < 16.
Proof. unfold class_of. change 0xf with (Z.ones 4). apply (land_mask_range _ 4). lia. Qed.

Lemma decode_class :
  decode (VNum w) pc =
    if class_of w =? 0xa then ([], Ok (_decodeBranch (VNum w) pc))
    else if (class_of w =? 0) || (class_of w =? 1) || (class_of w =? 2) || (class_of w =? 3)
    then _decodeDataProc (VNum w) pc
    else if (class_of w =? 4) || (class_of w =? 5)
    then _decodeDataTransfer (VNum w) pc
    else ([], Ok (_decodeUnknown pc)).
Proof.
  unfold decode. rewrite band_ushr by lia. fold (class_of w).
  rewrite !strict_eq_num. reflexivity.
Qed.

Lemma decode_branch_class :
  class_of w = 0xa -> decode (VNum w) pc = ([], Ok (_decodeBranch (VNum w) pc)).
Proof. intros H. rewrite decode_class, H. reflexivity. Qed.

Lemma decode_dataproc_class :
  class_of w <= 3 -> decode (VNum w) pc = _decodeDataProc (VNum w) pc.
Proof.
  intros H. pose proof class_of_range as R. rewrite decode_class.
  assert (class_of w = 0 \/ class_of w = 1 \/ class_of w = 2 \/ class_of w = 3)
    as [E|[E|[E|E]]] by lia; rewrite E; reflexivity.
Qed.

Lemma decode_transfer_class :
  class_of w = 4 \/ class_of w = 5 ->
  decode (VNum w) pc = _decodeDataTransfer (VNum w) pc.
Proof. intros [E|E]; rewrite decode_class, E; reflexivity. Qed.

Lemma dataProcOp_num o :
  dataProcOp (VNum o) =
    if o =? 9 then Some "teq"%string
    else if o =? 0xa then Some "cmp"%string
    else if o =? 0xd then Some "mov"%string
    else None.
Proof. reflexivity. Qed.

Lemma dataProcOp_unrecognized o : recognized o = false -> dataProcOp (VNum o) = None.
Proof.
  unfold recognized. rewrite dataProcOp_num. intros H.
  apply orb_false_elim in H as [H H3]. apply orb_false_elim in H as [H1 H2].
  now rewrite H1, H2, H3.
Qed.

Lemma dataProcOp_recognized o : recognized o = true -> exists op, dataProcOp (VNum o) = Some op.
Proof.
  unfold recognized. rewrite dataProcOp_num. intros H.
  destruct (o =? 9); [eauto|]. destruct (o =? 0xa); [eauto|].
  destruct (o =? 0xd); [eauto|]. discriminate.
Qed.

(** The [immediate] flag computed by the data-processing decoder. *)
Lemma immediate_flag :
  band (ushr (VNum w) (VNum 25)) (VBool (strict_eq (VNum 1) (VNum 1)))
  = VNum (Z.b2z (Z.testbit w 25)).
Proof.
  change (VBool (strict_eq (VNum 1) (VNum 1))) with (VBool true).
  change (band (ushr (VNum w) (VNum 25)) (VBool true))
    with (band (ushr (VNum w) (VNum 25)) (VNum 1)).
  rewrite band_ushr by lia. rewrite land_shiftr_1 by lia. reflexivity.
Qed.

Lemma one_bit_test k :
  0 <= k < 32 ->
  strict_eq (band (ushr (VNum w) (VNum k)) (VNum 1)) (VNum 1) = Z.testbit w k.
Proof.
  intros Hk. rewrite band_ushr by lia. rewrite land_shiftr_1 by lia.
  destruct (Z.testbit w k); reflexivity.
Qed.

(** What the data-processing decoder does with a word. *)
Lemma decodeDataProc_unrecognized :
  recognized (opcode_of w) = false ->
  _decodeDataProc (VNum w) pc
  = ([ErrorUnknownDataProc (VNum (opcode_of w))], Ok [pc; VStr "???"]).
Proof.
  intros H. unfold _decodeDataProc. rewrite band_ushr by lia. fold (opcode_of w).
  rewrite (dataProcOp_unrecognized _ H). reflexivity.
Qed.

Lemma decodeDataProc_register_operand :
  recognized (opcode_of w) = true -> Z.testbit w 25 = false ->
  _decodeDataProc (VNum w) pc = ([], Throw "TODO: Op2 is a register").
Proof.
  intros H B. unfold _decodeDataProc.
  rewrite immediate_flag, B.
  rewrite (band_ushr w 21) by lia. fold (opcode_of w).
  destruct (dataProcOp_recognized _ H) as [op ->]. reflexivity.
Qed.

(** In the data-transfer classes bit 25 is clear. *)
Lemma transfer_class_bit25 : class_of w = 4 \/ class_of w = 5 -> Z.testbit w 25 = false.
Proof.
  intros H.
  assert (Z.testbit (class_of w) 1 = Z.testbit w 25) as <-.
  { unfold class_of. rewrite Z.land_spec, Z.shiftr_spec by lia.
    change (Z.testbit 15 1) with true. now rewrite andb_true_r. }
  destruct H as [-> | ->]; reflexivity.
Qed.

Lemma decodeDataTransfer_store :
  class_of w = 4 \/ class_of w = 5 -> Z.testbit w 20 = false ->
  _decodeDataTransfer (VNum w) pc
  = ([], Ok [pc; VStr "str";
             regName (VNum (Z.land (Z.shiftr w 12) 0xf));
             regName (VNum (Z.land (Z.shiftr w 16) 0xf));
             VBool (Z.testbit w 24);
             VNum (if Z.testbit w 23 then Z.land w 0xfff else - Z.land w 0xfff)]).
Proof.
  intros Hc Hl. unfold _decodeDataTransfer.
  rewrite !one_bit_test by lia.
  rewrite (transfer_class_bit25 Hc), Hl.
  rewrite !band_ushr by lia. rewrite band_mask by lia.
  destruct (Z.testbit w 23); reflexivity.
Qed.

End DecoderFacts.

(** Reading a returned descriptor off the result of a decoder call. *)
Lemma returned_inj {A : Type} (evs evs' : list event) (a b : A) :
  (evs, Ok a) = (evs', Ok b) -> evs = evs' /\ a = b.
Proof.
  intros H. split.
  - exact (f_equal fst H).
  - exact (f_equal (fun r => match snd r with Ok x => x | Throw _ => a end) H).
Qed.

Lemma thrown_not_returned {A : Type} (evs evs' : list event) msg (b : A) :
  (evs, Throw msg) = (evs', Ok b) -> False.
Proof.
  intros H.
  exact (eq_ind (Throw msg) (fun o => match o with Ok _ => False | Throw _ => True end)
           I _ (f_equal snd H)).
Qed.

(** Whatever [decode] returns is one of the four descriptor forms. *)
Lemma decodeDataProc_descriptor word pc evs d :
  Decoder._decodeDataProc word pc = (evs, Ok d) -> descriptor d.
Proof.
  unfold Decoder._decodeDataProc, Decoder.dataProcOp.
  generalize (band (ushr word (VNum 21)) (VNum 15)). intros opcode.
  generalize (band (ushr word (VNum 25)) (VBool (strict_eq (VNum 1) (VNum 1)))).
  intros immediate.
  destruct (strict_eq opcode (VNum 9)).
  { destruct (truthy immediate); [|intros H; destruct (thrown_not_returned _ _ _ _ H)].
    intros [_ <-]%returned_inj.
    apply DDataProc. apply list_elem_of_here. }
  destruct (strict_eq opcode (VNum 10)).
  { destruct (truthy immediate); [|intros H; destruct (thrown_not_returned _ _ _ _ H)].
    intros [_ <-]%returned_inj.
    apply DDataProc. apply list_elem_of_further, list_elem_of_here. }
  destruct (strict_eq opcode (VNum 13)).
  { destruct (truthy immediate); [|intros H; destruct (thrown_not_returned _ _ _ _ H)].
    intros [_ <-]%returned_inj.
    apply DDataProc. do 2 apply list_elem_of_further. apply list_elem_of_here. }
  intros [_ <-]%returned_inj. apply DUnknown.
Qed.

Lemma decodeDataTransfer_descriptor word pc evs d :
  Decoder._decodeDataTransfer word pc = (evs, Ok d) -> descriptor d.
Proof.
  unfold Decoder._decodeDataTransfer.
  destruct (negb (strict_eq (band (ushr word (VNum 25)) (VNum 1)) (VNum 1)));
    [|intros H; destruct (thrown_not_returned _ _ _ _ H)].
  intros [_ <-]%returned_inj. apply DTransfer.
  destruct (strict_eq (band (ushr word (VNum 20)) (VNum 1)) (VNum 1)).
  - apply list_elem_of_here.
  - apply list_elem_of_further, list_elem_of_here.
Qed.

Lemma decode_descriptor word pc evs d :
  Decoder.decode word pc = (evs, Ok d) -> descriptor d.
Proof.
  unfold Decoder.decode.
  generalize (band (ushr word (VNum 24)) (VNum 15)). intros class.
  destruct (strict_eq class (VNum 10)).
  { intros [_ <-]%returned_inj. apply DBranch. }
  destruct (strict_eq class (VNum 0) || strict_eq class (VNum 1)
            || strict_eq class (VNum 2) || strict_eq class (VNum 3)).
  { apply decodeDataProc_descriptor. }
  destruct (strict_eq class (VNum 4) || strict_eq class (VNum 5)).
  { apply decodeDataTransfer_descriptor. }
  intros [_ <-]%returned_inj. apply DUnknown.
Qed.


(** ** The branch offset *)

Lemma offset24_range w : 0 <= offset24 w < 2 ^ 24.
Proof. unfold offset24. change 0xffffff with (Z.ones 24). apply land_mask_range. lia. Qed.

(** The target the decoder computes: the offset field is taken as it
    stands, since the 32-bit reinterpretation leaves a 24-bit value
    unchanged. *)
Lemma decodeBranch_target w p :
  Decoder._decodeBranch (VNum w) (VNum p)
  = [VNum p; VStr "b"; VNum (p + 8 + 4 * offset24 w)].
Proof.
  unfold Decoder._decodeBranch, Utils.toSigned.
  rewrite band_mask by lia. fold (offset24 w).
  pose proof (offset24_range w) as R.
  rewrite ToInt32_num, to_int32_small by lia.
  unfold add, mul, arith, ARM_INSTR_LENGTH. simpl ToNumber.
  do 3 f_equal. f_equal. lia.
Qed.

Lemma sign_extend_24_forward f : 0 <= f < 2 ^ 23 -> sign_extend_24 f = f.
Proof.
  intros H. unfold sign_extend_24.
  rewrite (Z.bits_above_log2 f 23); [reflexivity | lia |].
  destruct (Z.eq_dec f 0) as [-> | N]; [reflexivity|].
  apply Z.log2_lt_pow2; lia.
Qed.

(** The branch offset law holds for forward offsets (bit 23 clear). *)
Lemma branch_offset_forward w p :
  0 <= w < 2 ^ 32 -> class_of w = 0xa -> offset24 w < 2 ^ 23 ->
  Decoder.decode (VNum w) (VNum p)
  = ([], Ok [VNum p; VStr "b"; VNum (p + 8 + 4 * sign_extend_24 (offset24 w))]).
Proof.
  intros Hw Hc Hf. rewrite decode_branch_class by assumption.
  rewrite decodeBranch_target.
  pose proof (offset24_range w).
  rewrite sign_extend_24_forward by lia. reflexivity.
Qed.

(** No single helper is both the 24-bit sign extension of an offset
    field and the 32-bit reinterpretation of a register: the two differ
    on every value with bit 23 set and bits 24 to 31 clear. *)
Lemma toSigned_cannot_serve_both (helper : Z -> Z) :
  ~ ((forall f, 0 <= f < 2 ^ 24 -> helper f = sign_extend_24 f) /\
     (forall x, 0 <= x < 2 ^ 32 -> helper x = to_int32 x)).
Proof.
  intros [H24 H32].
  assert (sign_extend_24 (2 ^ 23) = to_int32 (2 ^ 23)) as E.
  { rewrite <- H24, <- H32 by lia. reflexivity. }
  vm_compute in E. discriminate E.
Qed.

(** With the register model of the helper the parametrised decoder is
    the decoder. *)
Lemma decode_with_register_helper word pc :
  decode_with Utils.toSigned word pc = Decoder.decode word pc.
Proof. reflexivity. Qed.




(** The worked example of the offset law, and a move with an immediate. *)
Example decode_branch_example :
  Decoder.decode (VNum 0xEA000002) (VNum 0) = ([], Ok [VNum 0; VStr "b"; VNum 16]).
Proof. vm_compute. reflexivity. Qed.

Example decode_mov_example :
  Decoder.decode (VNum 0xE3A000DF) (VNum 8)
  = ([], Ok [VNum 8; VStr "mov"; VStr "r0"; VStr "r0"; VNum 0xDF]).
Proof. vm_compute. reflexivity. Qed.

(** ** Register-operand data processing *)

(** C4 as stated fails: the all-zero word is in a data-processing class
    and has bit 25 clear, and [decode] returns the unknown descriptor. *)
Lemma register_operand_counterexample :
  class_of 0 <= 3 /\ Z.testbit 0 25 = false /\
  Decoder.decode (VNum 0) (VNum 0)
  = ([ErrorUnknownDataProc (VNum 0)], Ok [VNum 0; VStr "???"]).
Proof.
  split; [vm_compute; discriminate|]. split; [reflexivity|].
  rewrite decode_dataproc_class by (vm_compute; intuition discriminate).
  rewrite decodeDataProc_unrecognized by (try reflexivity; lia).
  reflexivity.
Qed.

(** C4 (amended): for a 32-bit word in a data-processing class with bit
    25 clear, [decode] throws when the opcode field is one of 9, 0xA and
    0xD; for any other opcode the check on the opcode comes first, and
    [decode] logs the error and returns the unknown descriptor. *)
Theorem register_operand_failure w pc :
  0 <= w < 2 ^ 32 -> class_of w <= 3 -> Z.testbit w 25 = false ->
  Decoder.decode (VNum w) pc =
    if recognized (opcode_of w)
    then ([], Throw "TODO: Op2 is a register")
    else ([ErrorUnknownDataProc (VNum (opcode_of w))], Ok [pc; VStr "???"]).
Proof.
  intros Hw Hc Hb. rewrite decode_dataproc_class by assumption.
  destruct (recognized (opcode_of w)) eqn:E.
  - apply decodeDataProc_register_operand; assumption.
  - apply decodeDataProc_unrecognized; assumption.
Qed.

Lemma register_operand_failure_witness :
  Decoder.decode (VNum 0x01200000) (VNum 0) = ([], Throw "TODO: Op2 is a register").
Proof.
  apply (register_operand_failure 0x01200000 (VNum 0)).
  - lia.
  - vm_compute. discriminate.
  - reflexivity.
Defined.


(** ** The register file and the status register *)

Section RegisterFile.

Implicit Types (s : ARM7TDMI) (k : string) (v : value).

Lemma reg_set_reg s k v : reg (set_reg k v s) k = v.
Proof. unfold reg, set_reg. simpl. now rewrite lookup_insert_eq. Qed.

Lemma reg_set_reg_ne s k k' v : k <> k' -> reg (set_reg k v s) k' = reg s k'.
Proof. intros H. unfold reg, set_reg. simpl. now rewrite lookup_insert_ne. Qed.

Lemma reg_lookup s k v : _r s !! k = Some v -> reg s k = v.
Proof. intros H. unfold reg. now rewrite H. Qed.

Lemma cpsr_bit_set_cpsr s v i :
  cpsr_bit (set_reg "cpsr" v s) i = Z.testbit (ToUint32 v) i.
Proof. unfold cpsr_bit, getCPSR. now rewrite reg_set_reg. Qed.

Lemma cpsr_bit_set_reg_ne s k v i :
  k <> "cpsr"%string -> cpsr_bit (set_reg k v s) i = cpsr_bit s i.
Proof. intros H. unfold cpsr_bit, getCPSR. now rewrite reg_set_reg_ne. Qed.

End RegisterFile.

Section BitOperators.

Variables (i : Z).
Hypothesis Hi : 0 <= i < 32.

Lemma testbit_bor a b :
  Z.testbit (ToUint32 (bor a b)) i
  = Z.testbit (ToUint32 a) i || Z.testbit (ToUint32 b) i.
Proof.
  unfold bor. rewrite ToUint32_num, testbit_to_uint32 by exact Hi.
  rewrite Z.lor_spec. now rewrite !testbit_ToInt32 by exact Hi.
Qed.

Lemma testbit_band a b :
  Z.testbit (ToUint32 (band a b)) i
  = Z.testbit (ToUint32 a) i && Z.testbit (ToUint32 b) i.
Proof.
  unfold band. rewrite ToUint32_num, testbit_to_uint32 by exact Hi.
  rewrite Z.land_spec. now rewrite !testbit_ToInt32 by exact Hi.
Qed.

Lemma testbit_shl a k :
  0 <= k < 32 ->
  Z.testbit (ToUint32 (shl a (VNum k))) i
  = (k <=? i) && Z.testbit (ToUint32 a) (i - k).
Proof.
  intros Hk. unfold shl. rewrite shift_count_small by exact Hk.
  rewrite ToUint32_num, testbit_to_uint32, testbit_to_int32 by exact Hi.
  rewrite Z.shiftl_spec by lia.
  destruct (Z.leb_spec k i).
  - now rewrite testbit_ToInt32 by lia.
  - now rewrite Z.testbit_neg_r by lia.
Qed.

Lemma ToUint32_range v : 0 <= ToUint32 v < 2 ^ 32.
Proof.
  unfold ToUint32. destruct (ToNumber v); [apply to_uint32_range | lia].
Qed.

(** [x >>> 0] keeps the bits and makes the value unsigned. *)
Lemma ushr_0 v : ushr v (VNum 0) = VNum (ToUint32 v).
Proof.
  unfold ushr. rewrite shift_count_small by lia. now rewrite Z.shiftr_0_r.
Qed.

Lemma testbit_ushr_0 v :
  Z.testbit (ToUint32 (ushr v (VNum 0))) i = Z.testbit (ToUint32 v) i.
Proof.
  rewrite ushr_0, ToUint32_num. apply testbit_to_uint32. exact Hi.
Qed.

(** The constants of the flag setters: one bit, or all bits but one. *)
Lemma testbit_flag_bit k :
  0 <= k < 32 -> Z.testbit (ToUint32 (VNum (2 ^ k))) i = (i =? k).
Proof.
  intros Hk. rewrite ToUint32_num, testbit_to_uint32 by exact Hi.
  rewrite Z.pow2_bits_eqb by lia. apply Z.eqb_sym.
Qed.

Lemma testbit_flag_mask k :
  0 <= k < 32 ->
  Z.testbit (ToUint32 (VNum (Z.ldiff (Z.ones 32) (2 ^ k)))) i = negb (i =? k).
Proof.
  intros Hk. rewrite ToUint32_num, testbit_to_uint32 by exact Hi.
  rewrite Z.ldiff_spec, Z.ones_spec_low by lia.
  rewrite Z.pow2_bits_eqb by lia. now rewrite (Z.eqb_sym k i).
Qed.

End BitOperators.

(** Each flag setter writes its own bit of [cpsr] and no other. *)
Definition flag_written (s : ARM7TDMI) (k : Z) (on : bool) (i : Z) : bool :=
  if i =? k then on else cpsr_bit s i.

Lemma flag_write s (on : bool) i k :
  0 <= i < 32 -> 0 <= k < 32 ->
  cpsr_bit
    (if on then set_reg "cpsr" (bor (reg s "cpsr") (VNum (2 ^ k))) s
     else set_reg "cpsr" (band (reg s "cpsr") (VNum (Z.ldiff (Z.ones 32) (2 ^ k)))) s) i
  = flag_written s k on i.
Proof.
  intros Hi Hk. unfold flag_written. destruct on; rewrite cpsr_bit_set_cpsr.
  - rewrite testbit_bor, testbit_flag_bit by lia.
    destruct (i =? k); [apply orb_true_r | apply orb_false_r].
  - rewrite testbit_band, testbit_flag_mask by lia.
    destruct (i =? k); simpl; [apply andb_false_r | apply andb_true_r].
Qed.

Lemma cpsr_bit_setN s (on : bool) i : 0 <= i < 32 -> cpsr_bit (_setN on s) i = flag_written s 31 on i.
Proof. intros Hi. apply (flag_write s (on : bool) i 31); lia. Qed.

Lemma cpsr_bit_setZ s (on : bool) i : 0 <= i < 32 -> cpsr_bit (_setZ on s) i = flag_written s 30 on i.
Proof. intros Hi. apply (flag_write s (on : bool) i 30); lia. Qed.

Lemma cpsr_bit_setC s (on : bool) i : 0 <= i < 32 -> cpsr_bit (_setC on s) i = flag_written s 29 on i.
Proof. intros Hi. apply (flag_write s (on : bool) i 29); lia. Qed.

Lemma cpsr_bit_setV s (on : bool) i : 0 <= i < 32 -> cpsr_bit (_setV on s) i = flag_written s 28 on i.
Proof. intros Hi. apply (flag_write s (on : bool) i 28); lia. Qed.

(** A flag setter touches no key of the register file but [cpsr]. *)
Lemma flag_setters_frame s (on : bool) k :
  k <> "cpsr"%string ->
  reg (_setN on s) k = reg s k /\ reg (_setZ on s) k = reg s k /\
  reg (_setC on s) k = reg s k /\ reg (_setV on s) k = reg s k.
Proof.
  intros H. unfold _setN, _setZ, _setC, _setV.
  destruct on; repeat split; apply reg_set_reg_ne; congruence.
Qed.


(** ** The compare and move handlers *)

(** C5 as stated fails: with the register and the operand both
    [0x80000000] the handler computes -2^31 - 2^31, so it leaves Zero clear
    and sets Overflow, where the law with a signed operand has a zero
    difference. *)
Lemma cmp_flags_counterexample :
  nzcv (_cmp [VStr "r0"; VStr "r1"; VNum 0x80000000]
          (set_reg "r1" (VNum 0x80000000) (new (fun _ => VNum 0))))
  = (false, false, true, true)
  /\ cmp_flags_claimed 0x80000000 0x80000000 = (false, true, true, false).
Proof. split; vm_compute; reflexivity. Qed.

(** C5 (amended): the compare handler reinterprets the register as
    signed and subtracts the operand as it stands, [diff = signed(rn) -
    op2]; Negative is the sign of [diff] wrapped to 32 bits, Zero is
    [diff = 0], Carry is the negation of [op2 > rn] on the raw register
    value, Overflow is [diff < -2^31]; the low 28 bits of [cpsr] are
    unchanged. *)
Theorem cmp_flags s Rd (Rn : string) rn op2 :
  Rn <> "cpsr"%string -> _r s !! Rn = Some (VNum rn) ->
  let s' := _cmp [Rd; VStr Rn; VNum op2] s in
  let diff := to_int32 rn - op2 in
  nzcv s' = (to_int32 diff <? 0, diff =? 0, negb (op2 >? rn), diff <? - 2 ^ 31)
  /\ forall i, 0 <= i < 28 -> cpsr_bit s' i = cpsr_bit s i.
Proof.
  intros Hne Hrn s' diff. subst s'. unfold _cmp.
  change (ToString (index [Rd; VStr Rn; VNum op2] 1)) with Rn.
  change (index [Rd; VStr Rn; VNum op2] 2) with (VNum op2).
  pose proof (reg_lookup _ _ _ Hrn) as Hreg. rewrite Hreg.
  change (Utils.toSigned (VNum rn)) with (VNum (to_int32 rn)).
  change (sub (VNum (to_int32 rn)) (VNum op2)) with (VNum diff).
  destruct (flag_setters_frame (_setN (lt (Utils.toSigned (VNum diff)) (VNum 0)) s)
              (strict_eq (VNum diff) (VNum 0)) Rn Hne) as (_ & HZ & _).
  destruct (flag_setters_frame s (lt (Utils.toSigned (VNum diff)) (VNum 0)) Rn Hne)
    as (HN & _).
  rewrite HZ, HN, Hreg.
  change (gt (VNum op2) (VNum rn)) with (rn <? op2).
  change (lt (Utils.toSigned (VNum diff)) (VNum 0)) with (to_int32 diff <? 0).
  change (strict_eq (VNum diff) (VNum 0)) with (diff =? 0).
  change (lt (VNum diff) (VNum (-2147483648))) with (diff <? - 2 ^ 31).
  rewrite Z.gtb_ltb.
  split.
  - unfold nzcv.
    repeat (rewrite ?cpsr_bit_setV, ?cpsr_bit_setC, ?cpsr_bit_setZ, ?cpsr_bit_setN by lia;
            unfold flag_written; simpl (_ =? _); cbv iota).
    reflexivity.
  - intros i Hi.
    repeat (rewrite ?cpsr_bit_setV, ?cpsr_bit_setC, ?cpsr_bit_setZ, ?cpsr_bit_setN by lia;
            unfold flag_written).
    replace (i =? 28) with false by (symmetry; apply Z.eqb_neq; lia).
    replace (i =? 29) with false by (symmetry; apply Z.eqb_neq; lia).
    replace (i =? 30) with false by (symmetry; apply Z.eqb_neq; lia).
    replace (i =? 31) with false by (symmetry; apply Z.eqb_neq; lia).
    reflexivity.
Qed.

(** The compare flag law of the spec: 5 against 5 gives Zero and Carry. *)
Lemma cmp_flags_witness :
  nzcv (_cmp [VStr "r0"; VStr "r1"; VNum 5]
          (set_reg "r1" (VNum 5) (new (fun _ => VNum 0))))
  = (false, true, true, false).
Proof.
  exact (proj1 (cmp_flags (set_reg "r1" (VNum 5) (new (fun _ => VNum 0)))
                  (VStr "r0") "r1" 5 5
                  ltac:(discriminate) ltac:(reflexivity))).
Defined.

(** C7: the move handler stores the operand in the destination register,
    sets Zero exactly when the operand is zero, and leaves every other bit
    of [cpsr], Negative, Carry and Overflow among them, as it was. *)
Theorem mov_flags s (Rd : string) Rn op2 :
  Rd <> "cpsr"%string ->
  let s' := _mov [VStr Rd; Rn; VNum op2] s in
  _r s' !! Rd = Some (VNum op2)
  /\ cpsr_bit s' 30 = (op2 =? 0)
  /\ cpsr_bit s' 31 = cpsr_bit s 31
  /\ cpsr_bit s' 29 = cpsr_bit s 29
  /\ cpsr_bit s' 28 = cpsr_bit s 28
  /\ forall i, 0 <= i < 32 -> i <> 30 -> cpsr_bit s' i = cpsr_bit s i.
Proof.
  intros Hne s'. subst s'. unfold _mov.
  change (ToString (index [VStr Rd; Rn; VNum op2] 0)) with Rd.
  change (index [VStr Rd; Rn; VNum op2] 2) with (VNum op2).
  change (strict_eq (VNum op2) (VNum 0)) with (op2 =? 0).
  assert (forall i, 0 <= i < 32 -> i <> 30 ->
            cpsr_bit (_setZ (op2 =? 0) (set_reg Rd (VNum op2) s)) i = cpsr_bit s i) as Hframe.
  { intros i Hi Hn. rewrite cpsr_bit_setZ by lia. unfold flag_written.
    replace (i =? 30) with false by (symmetry; apply Z.eqb_neq; lia).
    apply cpsr_bit_set_reg_ne. exact Hne. }
  split; [|split; [|repeat split]].
  - unfold _setZ. destruct (op2 =? 0); simpl;
      (rewrite lookup_insert_ne by congruence); apply lookup_insert_eq.
  - rewrite cpsr_bit_setZ by lia. reflexivity.
  - apply Hframe; lia.
  - apply Hframe; lia.
  - apply Hframe; lia.
  - exact Hframe.
Qed.

Lemma mov_flags_witness :
  let s := set_reg "cpsr" (VNum 0xB0000000) (new (fun _ => VNum 0)) in
  let s' := _mov [VStr "r3"; VStr "r0"; VNum 0] s in
  _r s' !! "r3"%string = Some (VNum 0) /\ cpsr_bit s' 30 = true
  /\ cpsr_bit s' 31 = cpsr_bit s 31.
Proof.
  intros s s'.
  destruct (mov_flags s "r3" (VStr "r0") 0 ltac:(discriminate)) as (H1 & H2 & H3 & _).
  exact (conj H1 (conj H2 H3)).
Defined.

(** ** The packed accessors of the status register *)

(** C6 (the code departs from the claim): the mask of [setNZCV] is
    [0x07ffffff], one bit short of the 28 low bits, so bit 27 is cleared.
    With [cpsr = 0x08000000], writing the nibble 0 leaves [cpsr = 0]. *)
Theorem setNZCV_clears_bit27 (MMU : value -> value) :
  let s := set_reg "cpsr" (VNum 0x08000000) (new MMU) in
  cpsr_bit s 27 = true
  /\ getCPSR (setNZCV (VNum 0) s) = VNum 0
  /\ cpsr_bit (setNZCV (VNum 0) s) 27 = false.
Proof.
  intros s. subst s. split; [|split].
  - rewrite cpsr_bit_set_cpsr. reflexivity.
  - unfold setNZCV, getCPSR. rewrite reg_set_reg, reg_set_reg. reflexivity.
  - unfold setNZCV. rewrite cpsr_bit_set_cpsr, reg_set_reg. reflexivity.
Qed.

(** C10 (the code departs from the claim): [getIFT] shifts [cpsr] right
    by 5 and does not mask the result to 3 bits.  After a move of zero has
    set the Zero flag, [setIFT(1)] followed by [getIFT()] returns
    [0x2000001], not 1. *)
Theorem IFT_roundtrip_fails (MMU : value -> value) :
  let s := _mov [VStr "r0"; VStr "r0"; VNum 0] (new MMU) in
  getCPSR s = VNum 0x40000000
  /\ getIFT (setIFT (VNum 1) s) = VNum 0x2000001.
Proof.
  intros s. subst s.
  assert (getCPSR (_mov [VStr "r0"; VStr "r0"; VNum 0] (new MMU)) = VNum 0x40000000) as E.
  { unfold _mov, _setZ, getCPSR. simpl strict_eq. cbv iota.
    rewrite reg_set_reg. rewrite reg_set_reg_ne by discriminate. reflexivity. }
  split; [exact E|].
  unfold getIFT, setIFT. rewrite reg_set_reg.
  unfold getCPSR in E. rewrite E. reflexivity.
Qed.


(** ** The pipeline phases *)

(** Everything of the instance but the register file and the log. *)
Definition same_pipeline (s s' : ARM7TDMI) : Prop :=
  _mmu s' = _mmu s /\ _fetched s' = _fetched s /\
  _decoded s' = _decoded s /\ _branched s' = _branched s.

Lemma same_pipeline_refl s : same_pipeline s s.
Proof. repeat split. Qed.

Lemma same_pipeline_trans s1 s2 s3 :
  same_pipeline s1 s2 -> same_pipeline s2 s3 -> same_pipeline s1 s3.
Proof.
  intros (A1 & A2 & A3 & A4) (B1 & B2 & B3 & B4).
  repeat split; congruence.
Qed.

Lemma set_reg_same_pipeline k v s : same_pipeline s (set_reg k v s).
Proof. repeat split. Qed.

Lemma emit_same_pipeline e s : same_pipeline s (emit e s).
Proof. repeat split. Qed.

Lemma flag_setters_same_pipeline (on : bool) s :
  same_pipeline s (_setN on s) /\ same_pipeline s (_setZ on s) /\
  same_pipeline s (_setC on s) /\ same_pipeline s (_setV on s).
Proof. destruct on; repeat split. Qed.

Lemma flag_setters_log (on : bool) s :
  log (_setN on s) = log s /\ log (_setZ on s) = log s /\
  log (_setC on s) = log s /\ log (_setV on s) = log s.
Proof. destruct on; repeat split. Qed.

Lemma emit_all_same_pipeline evs s : same_pipeline s (emit_all evs s).
Proof.
  revert s. induction evs as [|e evs IH]; intros s.
  - apply same_pipeline_refl.
  - simpl. eapply same_pipeline_trans; [apply (emit_same_pipeline e)|apply IH].
Qed.

Lemma emit_all_r evs s : _r (emit_all evs s) = _r s.
Proof.
  revert s. induction evs as [|e evs IH]; intros s; [reflexivity|].
  simpl. now rewrite IH.
Qed.

Lemma emit_all_log evs s : log (emit_all evs s) = log s ++ evs.
Proof.
  revert s. induction evs as [|e evs IH]; intros s.
  - simpl. now rewrite app_nil_r.
  - simpl. rewrite IH. simpl. now rewrite <- app_assoc.
Qed.

Lemma reg_same_r s s' k : _r s' = _r s -> reg s' k = reg s k.
Proof. intros H. unfold reg. now rewrite H. Qed.

(** The dispatch table, key by key. *)
Lemma opcodes_table :
  _opcodes "???" = Some _nop /\ _opcodes "b" = Some _b /\
  _opcodes "cmp" = Some _cmp /\ _opcodes "mov" = Some _mov /\
  _opcodes "ldr" = Some _ldr /\ _opcodes "teq" = Some _teq /\
  _opcodes "str" = None.
Proof. repeat split. Qed.

Lemma opcodes_cases op h :
  _opcodes op = Some h ->
  h = _nop \/ h = _b \/ h = _cmp \/ h = _mov \/ h = _ldr \/ h = _teq.
Proof.
  unfold _opcodes.
  assert (forall g, Some g = Some h -> h = g) as inj.
  { intros g H. symmetry. exact (f_equal (default h) H). }
  destruct (bool_decide (op = "???"%string)); [intros H%inj; tauto|].
  destruct (bool_decide (op = "b"%string)); [intros H%inj; tauto|].
  destruct (bool_decide (op = "cmp"%string)); [intros H%inj; tauto|].
  destruct (bool_decide (op = "mov"%string)); [intros H%inj; tauto|].
  destruct (bool_decide (op = "ldr"%string)); [intros H%inj; tauto|].
  destruct (bool_decide (op = "teq"%string)); [intros H%inj; tauto|].
  intros H. exfalso.
  exact (eq_ind None (fun o => match o with None => True | Some _ => False end) I _ H).
Qed.

(** What the execute phase does with a descriptor in the slot. *)
Lemma execute_descriptor s pc op args :
  _decoded s = Some (pc :: op :: args) ->
  _execute s =
    match _opcodes (ToString op) with
    | Some handler => handler args (emit (Instr pc op args) (with_decoded (Some args) s))
    | None => emit (Info (ToString op +:+ " unimplemented")) (with_decoded (Some args) s)
    end.
Proof. intros H. unfold _execute. rewrite H. reflexivity. Qed.

Lemma execute_empty s : _decoded s = None -> _execute s = s.
Proof. intros H. unfold _execute. now rewrite H. Qed.

(** No handler touches the fetch slot or the memory. *)
Lemma handler_keeps_fetched h args s :
  h = _nop \/ h = _b \/ h = _cmp \/ h = _mov \/ h = _ldr \/ h = _teq ->
  _fetched (h args s) = _fetched s /\ _mmu (h args s) = _mmu s.
Proof.
  intros [-> | [-> | [-> | [-> | [-> | ->]]]]].
  - split; reflexivity.
  - split; reflexivity.
  - unfold _cmp. cbv zeta.
    destruct (flag_setters_same_pipeline
                (lt (Utils.toSigned (sub (Utils.toSigned (reg s (ToString (index args 1))))
                                         (index args 2))) (VNum 0)) s)
      as ((N1 & N2 & _) & _).
    set (s1 := _setN _ s) in *.
    destruct (flag_setters_same_pipeline
                (strict_eq (sub (Utils.toSigned (reg s (ToString (index args 1))))
                                (index args 2)) (VNum 0)) s1)
      as (_ & (Z1 & Z2 & _) & _).
    set (s2 := _setZ _ s1) in *.
    destruct (flag_setters_same_pipeline
                (negb (gt (index args 2) (reg s2 (ToString (index args 1))))) s2)
      as (_ & _ & (C1 & C2 & _) & _).
    set (s3 := _setC _ s2) in *.
    destruct (flag_setters_same_pipeline
                (lt (sub (Utils.toSigned (reg s (ToString (index args 1))))
                         (index args 2)) (VNum (-2147483648))) s3)
      as (_ & _ & _ & (V1 & V2 & _)).
    split; congruence.
  - unfold _mov, _setZ.
    destruct (strict_eq _ _); split; reflexivity.
  - unfold _ldr. destruct (truthy _); split; reflexivity.
  - unfold _teq, _setZ. destruct (strict_eq _ _); split; reflexivity.
Qed.

Lemma execute_keeps_fetched s :
  _fetched (_execute s) = _fetched s /\ _mmu (_execute s) = _mmu s.
Proof.
  unfold _execute. destruct (_decoded s) as [d|]; [|split; reflexivity].
  destruct (_opcodes _) as [h|] eqn:E; [|split; reflexivity].
  apply opcodes_cases in E.
  destruct (handler_keeps_fetched h (drop 1 (drop 1 d))
              (emit (Instr (index d 0) (index (drop 1 d) 0) (drop 1 (drop 1 d)))
                 (with_decoded (Some (drop 1 (drop 1 d))) s)) E) as [-> ->].
  split; reflexivity.
Qed.


(** ** Instructions the core does not implement *)

(** C8: a data-processing word whose opcode field is not 9, 0xA or 0xD
    decodes, with an error event, to the unknown descriptor; executing it
    runs the empty handler.  No failure is raised, the register file
    ([cpsr] included) is unchanged, and the only trace is the two
    diagnostic events. *)
Theorem unrecognized_opcode_safe w pc s :
  0 <= w < 2 ^ 32 -> class_of w <= 3 -> recognized (opcode_of w) = false ->
  exists s',
    decode_then_execute (VNum w) pc s = Normal s'
    /\ _r s' = _r s
    /\ _mmu s' = _mmu s /\ _fetched s' = _fetched s /\ _branched s' = _branched s
    /\ log s' = log s ++ [ErrorUnknownDataProc (VNum (opcode_of w));
                          Instr pc (VStr "???") []].
Proof.
  intros Hw Hc Ho. unfold decode_then_execute.
  rewrite decode_dataproc_class, decodeDataProc_unrecognized by assumption.
  eexists. split; [reflexivity|].
  rewrite (execute_descriptor _ pc (VStr "???") []) by reflexivity.
  change (_opcodes (ToString (VStr "???"))) with (_opcodes "???").
  destruct opcodes_table as (-> & _).
  unfold _nop. simpl. rewrite <- app_assoc. repeat split.
Qed.

Lemma unrecognized_opcode_safe_witness :
  exists s',
    decode_then_execute (VNum 0xE0800001) (VNum 0) (new (fun _ => VNum 0)) = Normal s'
    /\ _r s' = _r (new (fun _ => VNum 0)).
Proof.
  destruct (unrecognized_opcode_safe 0xE0800001 (VNum 0) (new (fun _ => VNum 0)))
    as (s' & H1 & H2 & _).
  - lia.
  - vm_compute. discriminate.
  - reflexivity.
  - exists s'. exact (conj H1 H2).
Defined.

(** C9: a data-transfer word with bit 20 clear decodes to a descriptor
    tagged ["str"]; the dispatch table has no such key, so executing the
    descriptor emits one informational event and leaves the register file
    ([cpsr] included) and the memory as they were. *)
Theorem store_unimplemented w pc s :
  0 <= w < 2 ^ 32 -> class_of w = 4 \/ class_of w = 5 -> Z.testbit w 20 = false ->
  exists d s',
    Decoder.decode (VNum w) pc = ([], Ok d)
    /\ index d 0 = pc /\ index d 1 = VStr "str"
    /\ _opcodes "str" = None
    /\ decode_then_execute (VNum w) pc s = Normal s'
    /\ _r s' = _r s
    /\ _mmu s' = _mmu s /\ _fetched s' = _fetched s /\ _branched s' = _branched s
    /\ log s' = log s ++ [Info "str unimplemented"].
Proof.
  intros Hw Hc Hl. unfold decode_then_execute.
  rewrite decode_transfer_class, decodeDataTransfer_store by assumption.
  eexists. eexists. split; [reflexivity|].
  split; [reflexivity|]. split; [reflexivity|]. split; [reflexivity|].
  split; [reflexivity|].
  erewrite execute_descriptor by reflexivity.
  change (_opcodes (ToString (VStr "str"))) with (_opcodes "str").
  destruct opcodes_table as (_ & _ & _ & _ & _ & _ & ->).
  repeat split.
Qed.

Lemma store_unimplemented_witness :
  exists d s',
    Decoder.decode (VNum 0xE5801000) (VNum 0) = ([], Ok d)
    /\ index d 1 = VStr "str"
    /\ decode_then_execute (VNum 0xE5801000) (VNum 0) (new (fun _ => VNum 0)) = Normal s'
    /\ _r s' = _r (new (fun _ => VNum 0)).
Proof.
  destruct (store_unimplemented 0xE5801000 (VNum 0) (new (fun _ => VNum 0)))
    as (d & s' & H1 & _ & H2 & _ & H3 & H4 & _).
  - lia.
  - right. reflexivity.
  - reflexivity.
  - exists d, s'. exact (conj H1 (conj H2 (conj H3 H4))).
Defined.


(** ** The fetch phase *)

Section FetchPhase.

Variable s : ARM7TDMI.

Lemma fetch_keeps_decoded : _decoded (_fetch s) = _decoded s /\ _mmu (_fetch s) = _mmu s.
Proof.
  unfold _fetch. destruct (truthy (_branched s)); split; reflexivity.
Qed.

Lemma fetch_pc :
  reg (_fetch s) "pc"
  = add (if truthy (_branched s) then add (reg s "pc") (VNum 4) else reg s "pc") (VNum 4).
Proof.
  unfold _fetch. rewrite reg_set_reg.
  destruct (truthy (_branched s)); [|reflexivity].
  f_equal. apply (reg_set_reg (with_branched (VBool false) s)).
Qed.

(** The latch is never left set by a fetch. *)
Lemma fetch_consumes_latch : truthy (_branched (_fetch s)) = false.
Proof.
  unfold _fetch. destruct (truthy (_branched s)) eqn:E; [reflexivity | exact E].
Qed.

(** Rule 1: a decoded branch redirects the fetch to its target. *)
Lemma fetch_branch_target d :
  _decoded s = Some d -> index d 1 = VStr "b" ->
  _fetched (_fetch s) = Some [index d 2; _mmu s (index d 2)].
Proof.
  intros Hd Hb. unfold _fetch. rewrite Hd, Hb.
  change (strict_eq (VStr "b") (VStr "b")) with true. cbv iota.
  destruct (truthy (_branched s)); reflexivity.
Qed.

Hypothesis no_branch : forall d, _decoded s = Some d -> index d 1 <> VStr "b".

(** Rule 2: after an executed branch the fetch reads one word ahead. *)
Lemma fetch_refill :
  truthy (_branched s) = true ->
  _fetched (_fetch s)
  = Some [add (reg s "pc") (VNum 4); _mmu s (add (reg s "pc") (VNum 4))].
Proof.
  intros Hl. unfold _fetch. rewrite Hl.
  destruct (_decoded s) as [d|] eqn:Hd; [|reflexivity].
  rewrite (strict_eq_tag_ne _ _ (no_branch d eq_refl)). reflexivity.
Qed.

(** Rule 3: otherwise the fetch reads at [pc]. *)
Lemma fetch_sequential :
  truthy (_branched s) = false ->
  _fetched (_fetch s) = Some [reg s "pc"; _mmu s (reg s "pc")].
Proof.
  intros Hl. unfold _fetch. rewrite Hl.
  destruct (_decoded s) as [d|] eqn:Hd; [|reflexivity].
  rewrite (strict_eq_tag_ne _ _ (no_branch d eq_refl)). reflexivity.
Qed.

End FetchPhase.

(** ** The decode phase *)

Lemma decode_phase_returns s f evs d :
  _fetched s = Some f -> decode_fetched f = (evs, Ok d) ->
  _decode s = Normal (with_decoded (Some d) (emit_all evs s)).
Proof. intros Hf Hd. unfold _decode. rewrite Hf, Hd. reflexivity. Qed.

Lemma decode_phase_throws s f evs msg :
  _fetched s = Some f -> decode_fetched f = (evs, Throw msg) ->
  _decode s = Abrupt msg (emit_all evs s).
Proof. intros Hf Hd. unfold _decode. rewrite Hf, Hd. reflexivity. Qed.

Lemma decoded_state s evs d k :
  let s' := with_decoded (Some d) (emit_all evs s) in
  _decoded s' = Some d /\ reg s' k = reg s k /\ _mmu s' = _mmu s
  /\ _fetched s' = _fetched s /\ _branched s' = _branched s.
Proof.
  intros s'. subst s'.
  destruct (emit_all_same_pipeline evs s) as (A & B & _ & D).
  repeat split; try assumption.
  apply reg_same_r. apply emit_all_r.
Qed.

(** ** Executing a descriptor that is not a branch *)

Lemma regName_key rd : exists x, ToString (Decoder.regName rd) = ("r" +:+ x)%string.
Proof. exists (ToString rd). reflexivity. Qed.

Lemma r_key_not_pc x : ("r" +:+ x)%string <> "pc"%string.
Proof.
  intros H.
  apply (f_equal (fun k => match k with String c _ => Some c | EmptyString => None end)) in H.
  simpl in H. discriminate H.
Qed.

Lemma execute_nonbranch s d :
  _decoded s = Some d -> descriptor d -> index d 1 <> VStr "b" ->
  reg (_execute s) "pc" = reg s "pc" /\ _branched (_execute s) = _branched s.
Proof.
  intros Hd Hdesc. revert Hd.
  destruct Hdesc as [pc | pc t | pc op rd rn op2 Hop | pc op rd rn p off Hop];
    intros Hd Hnb.
  - rewrite (execute_descriptor _ _ _ _ Hd). split; reflexivity.
  - exfalso. apply Hnb. reflexivity.
  - rewrite (execute_descriptor _ _ _ _ Hd).
    change (ToString (VStr op)) with op.
    set (s0 := emit _ _).
    assert (reg s0 "pc" = reg s "pc" /\ _branched s0 = _branched s) as [E1 E2]
        by (split; reflexivity).
    rewrite <- E1, <- E2. clearbody s0.
    destruct (regName_key rd) as [x Hx].
    apply elem_of_cons in Hop as [-> | Hop];
      [|apply elem_of_cons in Hop as [-> | Hop];
        [|apply list_elem_of_singleton in Hop as ->]].
    + change (_opcodes "teq") with (Some _teq). unfold _teq. cbv zeta.
      destruct (flag_setters_frame s0
                  (strict_eq (ushr (bxor (reg s0 (ToString (index [Decoder.regName rd; Decoder.regName rn; op2] 1)))
                                         (index [Decoder.regName rd; Decoder.regName rn; op2] 2)) (VNum 0)) (VNum 0))
                  "pc" ltac:(discriminate)) as (_ & -> & _).
      destruct (flag_setters_same_pipeline
                  (strict_eq (ushr (bxor (reg s0 (ToString (index [Decoder.regName rd; Decoder.regName rn; op2] 1)))
                                         (index [Decoder.regName rd; Decoder.regName rn; op2] 2)) (VNum 0)) (VNum 0))
                  s0) as (_ & (_ & _ & _ & ->) & _).
      split; reflexivity.
    + change (_opcodes "cmp") with (Some _cmp). unfold _cmp. cbv zeta.
      repeat match goal with
             | |- context [_setV ?b ?t] =>
                 destruct (flag_setters_frame t b "pc" ltac:(discriminate)) as (_ & _ & _ & ->);
                 destruct (flag_setters_same_pipeline b t) as (_ & _ & _ & (_ & _ & _ & ->))
             | |- context [_setC ?b ?t] =>
                 destruct (flag_setters_frame t b "pc" ltac:(discriminate)) as (_ & _ & -> & _);
                 destruct (flag_setters_same_pipeline b t) as (_ & _ & (_ & _ & _ & ->) & _)
             | |- context [_setZ ?b ?t] =>
                 destruct (flag_setters_frame t b "pc" ltac:(discriminate)) as (_ & -> & _);
                 destruct (flag_setters_same_pipeline b t) as (_ & (_ & _ & _ & ->) & _)
             | |- context [_setN ?b ?t] =>
                 destruct (flag_setters_frame t b "pc" ltac:(discriminate)) as (-> & _);
                 destruct (flag_setters_same_pipeline b t) as ((_ & _ & _ & ->) & _)
             end.
      split; reflexivity.
    + change (_opcodes "mov") with (Some _mov). unfold _mov. cbv zeta.
      change (ToString (index [Decoder.regName rd; Decoder.regName rn; op2] 0))
        with (ToString (Decoder.regName rd)).
      rewrite Hx.
      match goal with
      | |- context [_setZ ?b ?t] =>
          destruct (flag_setters_frame t b "pc" ltac:(discriminate)) as (_ & -> & _);
          destruct (flag_setters_same_pipeline b t) as (_ & (_ & _ & _ & ->) & _)
      end.
      split; [|reflexivity].
      apply reg_set_reg_ne. apply r_key_not_pc.
  - rewrite (execute_descriptor _ _ _ _ Hd).
    change (ToString (VStr op)) with op.
    destruct (regName_key rd) as [x Hx].
    apply elem_of_cons in Hop as [-> | Hop];
      [|apply list_elem_of_singleton in Hop as ->].
    + change (_opcodes "ldr") with (Some _ldr). unfold _ldr. cbv zeta.
      change (ToString (index [Decoder.regName rd; Decoder.regName rn; VBool p; off] 0))
        with (ToString (Decoder.regName rd)).
      rewrite Hx.
      destruct (truthy _); [|split; reflexivity].
      split; [|reflexivity].
      etransitivity; [apply reg_set_reg_ne, r_key_not_pc | reflexivity].
    + change (_opcodes "str") with (@None (list value -> ARM7TDMI -> ARM7TDMI)).
      split; reflexivity.
Qed.


(** ** Pipeline lookahead *)

Lemma new_core (MMU : value -> value) :
  reg (new MMU) "pc" = VNum 0 /\ reg (new MMU) "cpsr" = VNum 0
  /\ _fetched (new MMU) = None /\ _decoded (new MMU) = None
  /\ _branched (new MMU) = VUndef /\ _mmu (new MMU) = MMU.
Proof. repeat split. Qed.

(** The state between the two fetches of [boot]. *)
Lemma first_fetch (MMU : value -> value) :
  let sa := _fetch (new MMU) in
  _fetched sa = Some [VNum 0; MMU (VNum 0)] /\ reg sa "pc" = VNum 4
  /\ truthy (_branched sa) = false /\ _mmu sa = MMU.
Proof.
  intros sa. subst sa. repeat split.
Qed.

(** C1 as stated fails: on a memory of zero words, [boot] and one
    [execute] make three fetches and leave [pc] at 12, not 8. *)
Lemma lookahead_counterexample :
  exists s2,
    andThen (boot (new (fun _ => VNum 0))) execute = Normal s2
    /\ getPC s2 = VNum 12.
Proof. eexists. split; vm_compute; reflexivity. Qed.

(** C1 (amended): whenever the decode phase of [boot] returns a
    descriptor [d] for the first fetch (made at address 0), [boot] leaves
    [d] in the [_decoded] slot, from which the next step's execute phase
    takes its instruction, and leaves [pc] at 8 after its two fetches.
    The step then fetches once more: when neither [d] nor the descriptor
    decoded in that step is a branch, [pc] is 12 after the step. *)
Theorem boot_lookahead (MMU : value -> value) evs d :
  decode_fetched [VNum 0; MMU (VNum 0)] = (evs, Ok d) ->
  exists s1,
    boot (new MMU) = Normal s1
    /\ _decoded s1 = Some d
    /\ getPC s1 = VNum 8
    /\ (index d 1 <> VStr "b" ->
        forall evs2 d2,
          decode_fetched [VNum 4; MMU (VNum 4)] = (evs2, Ok d2) ->
          index d2 1 <> VStr "b" ->
          exists s2, execute s1 = Normal s2 /\ _decoded s2 = Some d2
                     /\ getPC s2 = VNum 12).
Proof.
  intros Hd.
  destruct (first_fetch MMU) as (Fa & Pa & La & Ma).
  set (sa := _fetch (new MMU)) in *.
  set (sb := with_decoded (Some d) (emit_all evs sa)).
  destruct (decoded_state sa evs d "pc") as (Db & Pb & Mb & Fb & Lb). fold sb in Db, Pb, Mb, Fb, Lb.
  assert (truthy (_branched sb) = false) as Lb' by (rewrite Lb; exact La).
  assert (reg (_fetch sb) "pc" = VNum 8) as P1.
  { rewrite fetch_pc, Lb', Pb, Pa. reflexivity. }
  exists (_fetch sb). split; [|split; [|split]].
  - unfold boot. fold sa. rewrite (decode_phase_returns sa _ evs d Fa Hd). reflexivity.
  - rewrite (proj1 (fetch_keeps_decoded sb)). exact Db.
  - exact P1.
  - intros Hnb evs2 d2 Hd2 Hnb2.
    assert (forall d', _decoded sb = Some d' -> index d' 1 <> VStr "b") as NBb.
    { intros d' E. rewrite Db in E.
      assert (d' = d) as -> by exact (f_equal (default d') (eq_sym E)). exact Hnb. }
    pose proof (fetch_sequential sb NBb Lb') as F1. rewrite Pb, Pa, Mb, Ma in F1.
    set (s1 := _fetch sb) in *.
    assert (_decoded s1 = Some d) as D1
        by (unfold s1; rewrite (proj1 (fetch_keeps_decoded sb)); exact Db).
    destruct (execute_nonbranch s1 d D1 (decode_descriptor _ _ _ _ Hd) Hnb) as (Pe & Le).
    destruct (execute_keeps_fetched s1) as (Fe & _).
    set (se := _execute s1) in *.
    rewrite F1 in Fe.
    set (sc := with_decoded (Some d2) (emit_all evs2 se)).
    destruct (decoded_state se evs2 d2 "pc") as (Dc & Pc & _ & _ & Lc).
    fold sc in Dc, Pc, Lc.
    exists (_fetch sc). split; [|split].
    + unfold execute. fold se. rewrite (decode_phase_returns se _ evs2 d2 Fe Hd2). reflexivity.
    + rewrite (proj1 (fetch_keeps_decoded sc)). exact Dc.
    + unfold getPC. rewrite fetch_pc, Lc, Le.
      unfold s1 at 1. rewrite fetch_consumes_latch.
      rewrite Pc, Pe, P1. reflexivity.
Qed.

Lemma boot_lookahead_witness :
  exists s1,
    boot (new (fun _ => VNum 0)) = Normal s1
    /\ _decoded s1 = Some [VNum 0; VStr "???"] /\ getPC s1 = VNum 8.
Proof.
  destruct (boot_lookahead (fun _ => VNum 0) [ErrorUnknownDataProc (VNum 0)]
              [VNum 0; VStr "???"] ltac:(vm_compute; reflexivity))
    as (s1 & H1 & H2 & H3 & _).
  exists s1. exact (conj H1 (conj H2 H3)).
Defined.

(** ** Branch flush timing *)

(** C2 (the code departs from the claim).  The memory holds the branch
    word [0xEA000002] at address 0, whose decode at pc 0 has target 16,
    and zero elsewhere.  The decode phase spreads the fetch record
    [[address, word]] over the parameters [(word, pc)] of [decode], so it
    decodes the address 0 with the branch word as program counter and
    leaves an unknown descriptor in the slot.  No fetch is redirected:
    the second fetch of [boot] reads address 4 and the fetches of the next
    two steps read 8 and 12, where the claim has 16 and then 20. *)
Theorem branch_not_followed :
  let MMU := fun a => if strict_eq a (VNum 0) then VNum 0xEA000002 else VNum 0 in
  Decoder.decode (MMU (VNum 0)) (VNum 0) = ([], Ok [VNum 0; VStr "b"; VNum 16])
  /\ exists s1 s2 s3,
       boot (new MMU) = Normal s1
       /\ _decoded s1 = Some [VNum 0xEA000002; VStr "???"]
       /\ fetch_address s1 = Some (VNum 4)
       /\ execute s1 = Normal s2
       /\ fetch_address s2 = Some (VNum 8)
       /\ execute s2 = Normal s3
       /\ fetch_address s3 = Some (VNum 12).
Proof.
  intros MMU. subst MMU. split; [vm_compute; reflexivity|].
  eexists. eexists. eexists.
  split; [vm_compute; reflexivity|].
  split; [vm_compute; reflexivity|].
  split; [vm_compute; reflexivity|].
  split; [vm_compute; reflexivity|].
  split; [vm_compute; reflexivity|].
  split; vm_compute; reflexivity.
Qed.


(** * Further properties of the decoder *)

Section DecoderClasses.

Import Decoder.

Variable w : Z.
Variable pc : value.
Hypothesis Hw : 0 <= w < 2 ^ 32.

(** Bit 24 is at once the low bit of the class and the high bit of the
    data-processing opcode; bit 25 is bit 1 of the class. *)
Lemma class_bit0 : Z.testbit (class_of w) 0 = Z.testbit w 24.
Proof.
  unfold class_of. rewrite Z.land_spec, Z.shiftr_spec by lia.
  change (Z.testbit 15 0) with true. now rewrite andb_true_r.
Qed.

Lemma class_bit1 : Z.testbit (class_of w) 1 = Z.testbit w 25.
Proof.
  unfold class_of. rewrite Z.land_spec, Z.shiftr_spec by lia.
  change (Z.testbit 15 1) with true. now rewrite andb_true_r.
Qed.

Lemma opcode_bit3 : Z.testbit (opcode_of w) 3 = Z.testbit w 24.
Proof.
  unfold opcode_of. rewrite Z.land_spec, Z.shiftr_spec by lia.
  change (Z.testbit 15 3) with true. now rewrite andb_true_r.
Qed.

Lemma recognized_bit3 o : recognized o = true -> Z.testbit o 3 = true.
Proof.
  unfold recognized. intros H.
  apply orb_true_iff in H as [H | H]; [apply orb_true_iff in H as [H | H]|];
    apply Z.eqb_eq in H; subst o; reflexivity.
Qed.

Lemma even_class_unrecognized :
  class_of w = 0 \/ class_of w = 2 -> recognized (opcode_of w) = false.
Proof.
  intros Hc. destruct (recognized (opcode_of w)) eqn:E; [|reflexivity].
  apply recognized_bit3 in E. rewrite opcode_bit3, <- class_bit0 in E.
  destruct Hc as [Hc | Hc]; rewrite Hc in E; discriminate E.
Qed.

Lemma even_class_unknown :
  class_of w = 0 \/ class_of w = 2 ->
  decode (VNum w) pc
  = ([ErrorUnknownDataProc (VNum (opcode_of w))], Ok [pc; VStr "???"]).
Proof.
  intros Hc. rewrite decode_dataproc_class by (try assumption; lia).
  apply decodeDataProc_unrecognized; [assumption|].
  apply even_class_unrecognized. exact Hc.
Qed.

Lemma other_class_unknown :
  5 < class_of w -> class_of w <> 0xa ->
  decode (VNum w) pc = ([], Ok [pc; VStr "???"]).
Proof.
  intros H5 Ha. rewrite decode_class by assumption.
  repeat match goal with
         | |- context [class_of w =? ?k] =>
             replace (class_of w =? k) with false by (symmetry; apply Z.eqb_neq; lia)
         end.
  reflexivity.
Qed.

Lemma transfer_class_returns :
  class_of w = 4 \/ class_of w = 5 ->
  decode (VNum w) pc
  = ([], Ok [pc; VStr (if Z.testbit w 20 then "ldr" else "str");
             regName (VNum (Z.land (Z.shiftr w 12) 0xf));
             regName (VNum (Z.land (Z.shiftr w 16) 0xf));
             VBool (Z.testbit w 24);
             VNum (if Z.testbit w 23 then Z.land w 0xfff else - Z.land w 0xfff)])
  /\ 0 <= Z.land w 0xfff < 4096.
Proof.
  intros Hc. split.
  - rewrite decode_transfer_class by assumption.
    unfold _decodeDataTransfer.
    rewrite !one_bit_test by lia.
    rewrite (transfer_class_bit25 w Hc).
    rewrite !band_ushr by lia. rewrite band_mask by lia.
    destruct (Z.testbit w 23), (Z.testbit w 20); reflexivity.
  - change 0xfff with (Z.ones 12). apply (land_mask_range w 12). lia.
Qed.

Lemma immediate_returns :
  class_of w = 3 -> recognized (opcode_of w) = true ->
  exists op,
    dataProcOp (VNum (opcode_of w)) = Some op
    /\ decode (VNum w) pc
       = ([], Ok [pc; VStr op;
                  regName (VNum (Z.land (Z.shiftr w 12) 0xf));
                  regName (VNum (Z.land (Z.shiftr w 16) 0xf));
                  Utils.ror (VNum (Z.land w 0xff))
                            (VNum (Z.land (Z.shiftr w 8) 0xf * 2))]).
Proof.
  intros Hc Ho.
  destruct (dataProcOp_recognized _ Ho) as [op Hop]. exists op. split; [exact Hop|].
  rewrite decode_dataproc_class by (try assumption; lia).
  unfold _decodeDataProc.
  rewrite immediate_flag by assumption.
  rewrite <- class_bit1, Hc. change (Z.testbit 3 1) with true.
  rewrite !band_ushr by lia. rewrite band_mask by lia.
  fold (opcode_of w). rewrite Hop. reflexivity.
Qed.

(** [decode] throws exactly on the class-1 words whose opcode field is
    9, 0xA or 0xD, and then with the register-operand message. *)
Theorem decode_throws_iff :
  (exists evs msg, decode (VNum w) pc = (evs, Throw msg))
  <-> class_of w = 1 /\ recognized (opcode_of w) = true.
Proof.
  pose proof (class_of_range w) as R.
  split.
  - intros (evs & msg & H).
    assert (class_of w = 0 \/ class_of w = 2 \/ class_of w = 1 \/ class_of w = 3
            \/ (class_of w = 4 \/ class_of w = 5) \/ class_of w = 0xa
            \/ (5 < class_of w /\ class_of w <> 0xa)) as C by lia.
    destruct C as [C | [C | [C | [C | [C | [C | [C1 C2]]]]]]].
    + rewrite even_class_unknown in H by tauto.
      destruct (thrown_not_returned _ _ _ _ (eq_sym H)).
    + rewrite even_class_unknown in H by tauto.
      destruct (thrown_not_returned _ _ _ _ (eq_sym H)).
    + split; [exact C|].
      destruct (recognized (opcode_of w)) eqn:E; [reflexivity|].
      rewrite decode_dataproc_class, decodeDataProc_unrecognized in H
        by (try assumption; lia).
      destruct (thrown_not_returned _ _ _ _ (eq_sym H)).
    + destruct (recognized (opcode_of w)) eqn:E.
      * destruct (immediate_returns C E) as (op & _ & D). rewrite D in H.
        destruct (thrown_not_returned _ _ _ _ (eq_sym H)).
      * rewrite decode_dataproc_class, decodeDataProc_unrecognized in H
          by (try assumption; lia).
        destruct (thrown_not_returned _ _ _ _ (eq_sym H)).
    + rewrite (proj1 (transfer_class_returns C)) in H.
      destruct (thrown_not_returned _ _ _ _ (eq_sym H)).
    + rewrite decode_branch_class in H by assumption.
      destruct (thrown_not_returned _ _ _ _ (eq_sym H)).
    + rewrite other_class_unknown in H by assumption.
      destruct (thrown_not_returned _ _ _ _ (eq_sym H)).
  - intros [Hc Ho]. exists [], "TODO: Op2 is a register"%string.
    rewrite decode_dataproc_class by (try assumption; lia).
    apply decodeDataProc_register_operand; try assumption.
    rewrite <- class_bit1, Hc. reflexivity.
Qed.

End DecoderClasses.

Ltac in_list := repeat first [apply list_elem_of_here | apply list_elem_of_further].

(** Whatever [decode] returns starts with the program counter it was
    given and carries one of the seven tags; all but ["str"] are keys of
    the dispatch table. *)
Theorem decode_tags word pc evs d :
  Decoder.decode word pc = (evs, Ok d) ->
  index d 0 = pc
  /\ exists tag : string,
       index d 1 = VStr tag
       /\ tag ∈ ["???"; "b"; "teq"; "cmp"; "mov"; "ldr"; "str"]%string
       /\ (tag <> "str"%string -> is_Some (_opcodes tag)).
Proof.
  unfold Decoder.decode.
  generalize (band (ushr word (VNum 24)) (VNum 15)). intros class.
  assert (forall tag : string,
             tag ∈ ["???"; "b"; "teq"; "cmp"; "mov"; "ldr"; "str"]%string ->
             tag <> "str"%string -> is_Some (_opcodes tag)) as table.
  { intros tag Hin Hne.
    repeat (apply elem_of_cons in Hin as [-> | Hin];
            [first [eexists; reflexivity | destruct (Hne eq_refl)]|]).
    apply elem_of_nil in Hin. destruct Hin. }
  assert (forall tag rest,
             tag ∈ ["???"; "b"; "teq"; "cmp"; "mov"; "ldr"; "str"]%string ->
             index (pc :: VStr tag :: rest) 0 = pc
             /\ exists t : string, index (pc :: VStr tag :: rest) 1 = VStr t
                  /\ t ∈ ["???"; "b"; "teq"; "cmp"; "mov"; "ldr"; "str"]%string
                  /\ (t <> "str"%string -> is_Some (_opcodes t))) as shape.
  { intros tag rest Hin. split; [reflexivity|]. exists tag.
    split; [reflexivity|]. split; [exact Hin|]. apply table. exact Hin. }
  destruct (strict_eq class (VNum 10)).
  { intros [_ <-]%returned_inj. apply shape; in_list. }
  destruct (strict_eq class (VNum 0) || strict_eq class (VNum 1)
            || strict_eq class (VNum 2) || strict_eq class (VNum 3)).
  { unfold Decoder._decodeDataProc, Decoder.dataProcOp.
    generalize (band (ushr word (VNum 21)) (VNum 15)). intros opcode.
    generalize (band (ushr word (VNum 25)) (VBool (strict_eq (VNum 1) (VNum 1)))).
    intros immediate.
    destruct (strict_eq opcode (VNum 9)).
    { destruct (truthy immediate); [|intros H; destruct (thrown_not_returned _ _ _ _ H)].
      intros [_ <-]%returned_inj. apply shape; in_list. }
    destruct (strict_eq opcode (VNum 10)).
    { destruct (truthy immediate); [|intros H; destruct (thrown_not_returned _ _ _ _ H)].
      intros [_ <-]%returned_inj. apply shape; in_list. }
    destruct (strict_eq opcode (VNum 13)).
    { destruct (truthy immediate); [|intros H; destruct (thrown_not_returned _ _ _ _ H)].
      intros [_ <-]%returned_inj. apply shape; in_list. }
    intros [_ <-]%returned_inj. apply shape; in_list. }
  destruct (strict_eq class (VNum 4) || strict_eq class (VNum 5)).
  { unfold Decoder._decodeDataTransfer.
    destruct (negb (strict_eq (band (ushr word (VNum 25)) (VNum 1)) (VNum 1)));
      [|intros H; destruct (thrown_not_returned _ _ _ _ H)].
    intros [_ <-]%returned_inj.
    destruct (strict_eq (band (ushr word (VNum 20)) (VNum 1)) (VNum 1));
      apply shape; in_list. }
  intros [_ <-]%returned_inj. apply shape; in_list.
Qed.

(** A word of class 0 or 2 never yields a data-processing descriptor:
    bit 24, the low bit of the class, is the high bit of the opcode field,
    so the opcode is below 8; the decoder logs the error and returns the
    unknown descriptor. *)
Theorem decode_even_dataproc_class w pc :
  0 <= w < 2 ^ 32 -> class_of w = 0 \/ class_of w = 2 ->
  Decoder.decode (VNum w) pc
  = ([ErrorUnknownDataProc (VNum (opcode_of w))], Ok [pc; VStr "???"]).
Proof. apply even_class_unknown. Qed.

(** A word of a class other than 0-5 and 0xA decodes to the unknown
    descriptor, with no event. *)
Theorem decode_other_class w pc :
  0 <= w < 2 ^ 32 -> 5 < class_of w -> class_of w <> 0xa ->
  Decoder.decode (VNum w) pc = ([], Ok [pc; VStr "???"]).
Proof. apply other_class_unknown. Qed.

(** Every data-transfer word decodes: bit 25 is clear in classes 4 and
    5, so the shifted-register failure cannot be reached through
    [decode].  Bit 20 selects load or store, bit 24 is the pre-index
    flag, and the 12-bit offset is negated when bit 23 is clear. *)
Theorem decode_transfer_total w pc :
  0 <= w < 2 ^ 32 -> class_of w = 4 \/ class_of w = 5 ->
  Decoder.decode (VNum w) pc
  = ([], Ok [pc; VStr (if Z.testbit w 20 then "ldr" else "str");
             Decoder.regName (VNum (Z.land (Z.shiftr w 12) 0xf));
             Decoder.regName (VNum (Z.land (Z.shiftr w 16) 0xf));
             VBool (Z.testbit w 24);
             VNum (if Z.testbit w 23 then Z.land w 0xfff else - Z.land w 0xfff)])
  /\ 0 <= Z.land w 0xfff < 4096.
Proof. apply transfer_class_returns. Qed.

(** A class-3 word with a recognized opcode decodes to a data-processing
    descriptor: the operation by the opcode, the two register names, and
    the 8-bit immediate rotated right by twice the rotate field. *)
Theorem decode_immediate w pc :
  0 <= w < 2 ^ 32 -> class_of w = 3 -> recognized (opcode_of w) = true ->
  exists op,
    Decoder.dataProcOp (VNum (opcode_of w)) = Some op
    /\ Decoder.decode (VNum w) pc
       = ([], Ok [pc; VStr op;
                  Decoder.regName (VNum (Z.land (Z.shiftr w 12) 0xf));
                  Decoder.regName (VNum (Z.land (Z.shiftr w 16) 0xf));
                  Utils.ror (VNum (Z.land w 0xff))
                            (VNum (Z.land (Z.shiftr w 8) 0xf * 2))]).
Proof. apply immediate_returns. Qed.

Lemma decode_throws_iff_witness :
  exists evs msg, Decoder.decode (VNum 0x01200000) (VNum 0) = (evs, Throw msg).
Proof.
  apply (decode_throws_iff 0x01200000 (VNum 0) ltac:(lia)).
  split; reflexivity.
Defined.

Lemma decode_even_dataproc_class_witness :
  Decoder.decode (VNum 0x02000000) (VNum 4)
  = ([ErrorUnknownDataProc (VNum 0)], Ok [VNum 4; VStr "???"]).
Proof.
  apply (decode_even_dataproc_class 0x02000000 (VNum 4) ltac:(lia)).
  right. reflexivity.
Defined.

Lemma decode_other_class_witness :
  Decoder.decode (VNum 0xEF000000) (VNum 4) = ([], Ok [VNum 4; VStr "???"]).
Proof.
  apply (decode_other_class 0xEF000000 (VNum 4) ltac:(lia)).
  - vm_compute. reflexivity.
  - vm_compute. discriminate.
Defined.

Lemma decode_transfer_total_witness :
  Decoder.decode (VNum 0xE51F1004) (VNum 0)
  = ([], Ok [VNum 0; VStr "ldr"; VStr "r1"; VStr "r15"; VBool true; VNum (-4)]).
Proof.
  exact (proj1 (decode_transfer_total 0xE51F1004 (VNum 0) ltac:(lia)
                  ltac:(right; reflexivity))).
Defined.

Lemma decode_immediate_witness :
  exists op,
    Decoder.dataProcOp (VNum (opcode_of 0xE3A000DF)) = Some op
    /\ Decoder.decode (VNum 0xE3A000DF) (VNum 8)
       = ([], Ok [VNum 8; VStr op; VStr "r0"; VStr "r0"; VNum 0xDF]).
Proof.
  exact (decode_immediate 0xE3A000DF (VNum 8) ltac:(lia)
           ltac:(reflexivity) ltac:(reflexivity)).
Defined.

Lemma decode_tags_witness :
  index [VNum 0; VStr "b"; VNum 16] 0 = VNum 0
  /\ exists tag : string,
       index [VNum 0; VStr "b"; VNum 16] 1 = VStr tag
       /\ tag ∈ ["???"; "b"; "teq"; "cmp"; "mov"; "ldr"; "str"]%string
       /\ (tag <> "str"%string -> is_Some (_opcodes tag)).
Proof.
  apply (decode_tags (VNum 0xEA000002) (VNum 0) []).
  vm_compute. reflexivity.
Defined.


(** * Further properties of the status register accessors *)

Lemma testbit_above b k j : 0 <= b < 2 ^ k -> 0 <= k <= j -> Z.testbit b j = false.
Proof.
  intros Hb Hk. rewrite <- (Z.mod_small b (2 ^ k)) by exact Hb.
  apply Z.mod_pow2_bits_high. lia.
Qed.

Lemma nibble_bits n :
  0 <= n < 16 ->
  n = 8 * Z.b2z (Z.testbit n 3) + 4 * Z.b2z (Z.testbit n 2)
      + 2 * Z.b2z (Z.testbit n 1) + Z.b2z (Z.testbit n 0).
Proof.
  intros [Lo Hi]. destruct n as [|p|p]; [reflexivity| |lia].
  do 4 (try (destruct p as [p|p|]; try reflexivity)); exfalso; lia.
Qed.

(** The two masks, bit by bit. *)
Lemma mask_NZCV_bits i :
  0 <= i < 32 -> Z.testbit (ToUint32 (VNum 0x07ffffff)) i = (i <? 27).
Proof.
  intros Hi. rewrite ToUint32_num, testbit_to_uint32 by exact Hi.
  change 0x07ffffff with (Z.ones 27).
  destruct (Z.ltb_spec i 27).
  - apply Z.ones_spec_low. lia.
  - apply Z.ones_spec_high. lia.
Qed.

Lemma mask_IFT_bits i :
  0 <= i < 32 ->
  Z.testbit (ToUint32 (VNum 0xffffff1f)) i = negb ((5 <=? i) && (i <? 8)).
Proof.
  intros Hi. rewrite ToUint32_num, testbit_to_uint32 by exact Hi.
  change 0xffffff1f with (Z.ldiff (Z.ones 32) (Z.shiftl (Z.ones 3) 5)).
  rewrite Z.ldiff_spec, Z.ones_spec_low by lia. simpl andb.
  rewrite Z.shiftl_spec by lia.
  destruct (Z.leb_spec 5 i); simpl.
  - destruct (Z.ltb_spec i 8).
    + rewrite Z.ones_spec_low by lia. reflexivity.
    + rewrite Z.ones_spec_high by lia. reflexivity.
  - rewrite Z.testbit_neg_r by lia. reflexivity.
Qed.

Lemma ToUint32_small b : 0 <= b < 2 ^ 32 -> ToUint32 (VNum b) = b.
Proof. intros H. rewrite ToUint32_num. apply to_uint32_small. exact H. Qed.

(** Each of the four flag setters writes its own bit of [cpsr] (31, 30,
    29, 28 for N, Z, C, V), leaves the other 31 bits as they were, and
    touches no other key of the register file. *)
Theorem flag_setters_independent s (on : bool) i :
  0 <= i < 32 ->
  cpsr_bit (_setN on s) i = (if i =? 31 then on else cpsr_bit s i)
  /\ cpsr_bit (_setZ on s) i = (if i =? 30 then on else cpsr_bit s i)
  /\ cpsr_bit (_setC on s) i = (if i =? 29 then on else cpsr_bit s i)
  /\ cpsr_bit (_setV on s) i = (if i =? 28 then on else cpsr_bit s i)
  /\ forall k, k <> "cpsr"%string ->
       reg (_setN on s) k = reg s k /\ reg (_setZ on s) k = reg s k /\
       reg (_setC on s) k = reg s k /\ reg (_setV on s) k = reg s k.
Proof.
  intros Hi. repeat split.
  - apply cpsr_bit_setN. exact Hi.
  - apply cpsr_bit_setZ. exact Hi.
  - apply cpsr_bit_setC. exact Hi.
  - apply cpsr_bit_setV. exact Hi.
  - apply flag_setters_frame; assumption.
  - apply flag_setters_frame; assumption.
  - apply flag_setters_frame; assumption.
  - apply flag_setters_frame; assumption.
Qed.

Lemma flag_setters_independent_witness :
  cpsr_bit (_setN true (new (fun _ => VNum 0))) 31 = true
  /\ cpsr_bit (_setZ true (new (fun _ => VNum 0))) 31 = false.
Proof.
  destruct (flag_setters_independent (new (fun _ => VNum 0)) true 31 ltac:(lia))
    as (H1 & H2 & _).
  exact (conj H1 H2).
Defined.

(** Setting Negative leaves a negative number in [cpsr]: [|=] yields a
    signed 32-bit result.  The accessors that shift with [>>>] read it as
    unsigned all the same. *)
Theorem setN_leaves_signed_value s :
  exists n, getCPSR (_setN true s) = VNum n /\ - 2 ^ 31 <= n < 0.
Proof.
  unfold _setN, getCPSR. rewrite reg_set_reg. unfold bor.
  eexists. split; [reflexivity|].
  rewrite ToInt32_num. change (to_int32 2147483648) with (- 2 ^ 31).
  assert (- 2 ^ 31 <= ToInt32 (reg s "cpsr") < 2 ^ 31) as R.
  { unfold ToInt32. destruct (ToNumber _); [apply to_int32_range | lia]. }
  set (c := ToInt32 (reg s "cpsr")) in *.
  assert (Z.lor c (- 2 ^ 31) < 0) as Neg.
  { apply Z.lor_neg. right. lia. }
  split; [|exact Neg].
  destruct (Z.lt_ge_cases (Z.lor c (- 2 ^ 31)) (- 2 ^ 31)) as [Lt|]; [|assumption].
  exfalso.
  assert (Z.testbit (Z.lor c (- 2 ^ 31)) 31 = true) as B.
  { rewrite Z.lor_spec. change (Z.testbit (- 2 ^ 31) 31) with true. apply orb_true_r. }
  assert (forall j, 31 <= j -> Z.testbit (Z.lor c (- 2 ^ 31)) j = true) as Hi.
  { intros j Hj. rewrite Z.lor_spec.
    replace (Z.testbit (- 2 ^ 31) j) with true; [apply orb_true_r|].
    symmetry. change (- 2 ^ 31) with (Z.shiftl (-1) 31).
    rewrite Z.shiftl_spec by lia. apply Z.bits_m1. lia. }
  set (x := Z.lor c (- 2 ^ 31)) in *.
  assert (Z.lnot x < 2 ^ 31) as Small.
  { destruct (Z.eq_dec (Z.lnot x) 0) as [-> | NZ]; [lia|].
    assert (0 <= Z.lnot x) by (apply Z.lnot_nonneg; lia).
    apply Z.log2_lt_pow2; [lia|].
    destruct (Z.lt_ge_cases (Z.log2 (Z.lnot x)) 31) as [|Ge]; [assumption|].
    exfalso.
    pose proof (Z.bit_log2 (Z.lnot x) ltac:(lia)) as T.
    rewrite Z.lnot_spec in T by (apply Z.log2_nonneg).
    rewrite (Hi _ Ge) in T. discriminate T. }
  unfold Z.lnot in Small. lia.
Qed.

(** [getNZCV] returns the four flags packed as a number from 0 to 15,
    whatever the sign of the stored value. *)
Theorem getNZCV_reads_flags s :
  getNZCV s
  = VNum (8 * Z.b2z (cpsr_bit s 31) + 4 * Z.b2z (cpsr_bit s 30)
          + 2 * Z.b2z (cpsr_bit s 29) + Z.b2z (cpsr_bit s 28)).
Proof.
  unfold getNZCV, ushr, cpsr_bit, getCPSR.
  rewrite shift_count_small by lia. f_equal.
  pose proof (ToUint32_range (reg s "cpsr")) as R.
  set (u := ToUint32 (reg s "cpsr")) in *.
  assert (0 <= Z.shiftr u 28 < 16) as Rn.
  { rewrite Z.shiftr_div_pow2 by lia. split.
    - apply Z.div_pos; lia.
    - apply Z.div_lt_upper_bound; lia. }
  rewrite (nibble_bits _ Rn) at 1.
  rewrite !Z.shiftr_spec by lia. reflexivity.
Qed.

(** The packed flag nibble round-trips: what [setNZCV] writes,
    [getNZCV] reads back, from any prior [cpsr]. *)
Theorem NZCV_roundtrip s b :
  0 <= b < 16 -> getNZCV (setNZCV (VNum b) s) = VNum b.
Proof.
  intros Hb. unfold getNZCV, setNZCV. rewrite reg_set_reg.
  rewrite ushr_0 by lia.
  unfold ushr at 1. rewrite shift_count_small by lia.
  rewrite ToUint32_num, to_uint32_small by (apply ToUint32_range).
  f_equal. apply Z.bits_inj'. intros i Hi.
  rewrite Z.shiftr_spec by lia.
  destruct (Z.lt_ge_cases (i + 28) 32).
  - rewrite testbit_bor, testbit_band, mask_NZCV_bits, testbit_shl by lia.
    replace (i + 28 <? 27) with false by (symmetry; apply Z.ltb_ge; lia).
    replace (28 <=? i + 28) with true by (symmetry; apply Z.leb_le; lia).
    rewrite andb_false_r. simpl.
    rewrite ToUint32_small by lia. f_equal. lia.
  - rewrite (testbit_above _ 32 (i + 28)) by (try apply ToUint32_range; lia).
    symmetry. apply (testbit_above b 4); lia.
Qed.

Lemma NZCV_roundtrip_witness :
  getNZCV (setNZCV (VNum 0xA) (new (fun _ => VNum 0))) = VNum 0xA.
Proof. apply (NZCV_roundtrip (new (fun _ => VNum 0)) 0xA). lia. Defined.

(** What [setNZCV] does to each bit: the nibble goes to bits 31-28, bit
    27 is cleared, bits 26-0 are kept. *)
Theorem setNZCV_bits s b i :
  0 <= b < 16 -> 0 <= i < 32 ->
  cpsr_bit (setNZCV (VNum b) s) i
  = if 28 <=? i then Z.testbit b (i - 28)
    else if i =? 27 then false
    else cpsr_bit s i.
Proof.
  intros Hb Hi. unfold setNZCV. rewrite cpsr_bit_set_cpsr.
  rewrite testbit_ushr_0, testbit_bor, testbit_band, mask_NZCV_bits, testbit_shl by lia.
  rewrite ToUint32_small by lia. unfold cpsr_bit, getCPSR.
  destruct (Z.leb_spec 28 i).
  - replace (i <? 27) with false by (symmetry; apply Z.ltb_ge; lia).
    rewrite andb_false_r. reflexivity.
  - simpl. rewrite orb_false_r.
    destruct (Z.eqb_spec i 27).
    + replace (i <? 27) with false by (symmetry; apply Z.ltb_ge; lia).
      apply andb_false_r.
    + replace (i <? 27) with true by (symmetry; apply Z.ltb_lt; lia).
      apply andb_true_r.
Qed.

Lemma setNZCV_bits_witness :
  cpsr_bit (setNZCV (VNum 0xA) (new (fun _ => VNum 0))) 31 = true.
Proof.
  exact (setNZCV_bits (new (fun _ => VNum 0)) 0xA 31 ltac:(lia) ltac:(lia)).
Defined.

(** [setIFT] writes its 3-bit argument to bits 7-5 and keeps every other
    bit of [cpsr]. *)
Theorem setIFT_bits s b i :
  0 <= b < 8 -> 0 <= i < 32 ->
  cpsr_bit (setIFT (VNum b) s) i
  = if (5 <=? i) && (i <? 8) then Z.testbit b (i - 5) else cpsr_bit s i.
Proof.
  intros Hb Hi. unfold setIFT. rewrite cpsr_bit_set_cpsr.
  rewrite testbit_ushr_0, testbit_bor, testbit_band, mask_IFT_bits, testbit_shl by lia.
  rewrite ToUint32_small by lia. unfold cpsr_bit, getCPSR.
  destruct (Z.leb_spec 5 i); simpl.
  - destruct (Z.ltb_spec i 8); simpl.
    + rewrite andb_false_r. reflexivity.
    + rewrite andb_true_r. rewrite (testbit_above b 3 (i - 5)) by lia.
      apply orb_false_r.
  - rewrite andb_true_r. apply orb_false_r.
Qed.

Lemma setIFT_bits_witness :
  cpsr_bit (setIFT (VNum 5) (new (fun _ => VNum 0))) 7 = true.
Proof.
  exact (setIFT_bits (new (fun _ => VNum 0)) 5 7 ltac:(lia) ltac:(lia)).
Defined.

(** [getIFT] after [setIFT]: the field comes back in the low three bits,
    with bits 31-8 of [cpsr] above it.  So the pair round-trips exactly
    when those upper bits are clear. *)
Theorem IFT_get_after_set s b :
  0 <= b < 8 ->
  getIFT (setIFT (VNum b) s)
  = VNum (b + 8 * Z.shiftr (ToUint32 (getCPSR s)) 8).
Proof.
  intros Hb. unfold getIFT, setIFT, getCPSR. rewrite reg_set_reg.
  rewrite ushr_0 by lia.
  unfold ushr at 1. rewrite shift_count_small by lia.
  rewrite ToUint32_num, to_uint32_small by (apply ToUint32_range).
  f_equal.
  pose proof (ToUint32_range (reg s "cpsr")) as R.
  set (c := reg s "cpsr") in *.
  assert (0 <= Z.shiftr (ToUint32 c) 8) as Hx by (apply Z.shiftr_nonneg; lia).
  replace (b + 8 * Z.shiftr (ToUint32 c) 8)
    with (Z.lor b (Z.shiftl (Z.shiftr (ToUint32 c) 8) 3)).
  2: { assert (Z.land b (Z.shiftl (Z.shiftr (ToUint32 c) 8) 3) = 0) as Disjoint.
       { apply Z.bits_inj'. intros j Hj. rewrite Z.land_spec, Z.bits_0.
         rewrite Z.shiftl_spec by lia.
         destruct (Z.lt_ge_cases j 3).
         + rewrite (Z.testbit_neg_r _ (j - 3)) by lia. apply andb_false_r.
         + rewrite (testbit_above b 3 j) by lia. reflexivity. }
       rewrite <- Z.lxor_lor by exact Disjoint.
       rewrite <- Z.add_nocarry_lxor by exact Disjoint.
       rewrite Z.shiftl_mul_pow2 by lia. change (2 ^ 3) with 8. lia. }
  apply Z.bits_inj'. intros i Hi.
  rewrite Z.shiftr_spec, Z.lor_spec, Z.shiftl_spec by lia.
  destruct (Z.lt_ge_cases (i + 5) 32).
  - rewrite testbit_bor, testbit_band, mask_IFT_bits, testbit_shl by lia.
    rewrite ToUint32_small by lia.
    replace (5 <=? i + 5) with true by (symmetry; apply Z.leb_le; lia).
    replace (i + 5 - 5) with i by lia. simpl.
    destruct (Z.lt_ge_cases i 3).
    + replace (i + 5 <? 8) with true by (symmetry; apply Z.ltb_lt; lia).
      simpl. rewrite andb_false_r. simpl.
      rewrite (Z.testbit_neg_r _ (i - 3)) by lia. now rewrite orb_false_r.
    + replace (i + 5 <? 8) with false by (symmetry; apply Z.ltb_ge; lia).
      simpl. rewrite andb_true_r.
      rewrite (testbit_above b 3 i) by lia.
      rewrite Z.shiftr_spec by lia. rewrite orb_false_r, orb_false_l.
      f_equal. lia.
  - rewrite (testbit_above _ 32 (i + 5)) by (try apply ToUint32_range; lia).
    rewrite (testbit_above b 3 i) by lia.
    rewrite Z.shiftr_spec by lia.
    rewrite (testbit_above (ToUint32 c) 32) by lia. reflexivity.
Qed.

Lemma IFT_get_after_set_witness :
  getIFT (setIFT (VNum 5) (new (fun _ => VNum 0))) = VNum 5.
Proof.
  exact (IFT_get_after_set (new (fun _ => VNum 0)) 5 ltac:(lia)).
Defined.


(** * Further properties of the instruction handlers *)

(** The 32-bit exclusive or of two words is zero exactly when they are
    equal. *)
Lemma xor32_zero a b :
  0 <= a < 2 ^ 32 -> 0 <= b < 2 ^ 32 ->
  (to_uint32 (Z.lxor (to_int32 a) (to_int32 b)) =? 0) = (a =? b).
Proof.
  intros Ha Hb.
  destruct (Z.eqb_spec a b) as [-> | Hne].
  - rewrite Z.lxor_nilpotent. reflexivity.
  - apply Z.eqb_neq. intros H0. apply Hne.
    apply Z.bits_inj'. intros i Hi.
    destruct (Z.lt_ge_cases i 32).
    + assert (Z.testbit (to_uint32 (Z.lxor (to_int32 a) (to_int32 b))) i = false) as T
          by (rewrite H0; apply Z.bits_0).
      rewrite testbit_to_uint32, Z.lxor_spec, !testbit_to_int32 in T by lia.
      apply xorb_eq. exact T.
    + rewrite (testbit_above a 32 i), (testbit_above b 32 i) by lia. reflexivity.
Qed.

(** The test-equivalence handler sets Zero exactly when the register and
    the operand are the same 32-bit word; it changes no other bit of
    [cpsr] and no other register. *)
Theorem teq_flags s Rd (Rn : string) rn op2 :
  Rn <> "cpsr"%string -> _r s !! Rn = Some (VNum rn) ->
  0 <= rn < 2 ^ 32 -> 0 <= op2 < 2 ^ 32 ->
  let s' := _teq [Rd; VStr Rn; VNum op2] s in
  cpsr_bit s' 30 = (rn =? op2)
  /\ (forall i, 0 <= i < 32 -> i <> 30 -> cpsr_bit s' i = cpsr_bit s i)
  /\ (forall k, k <> "cpsr"%string -> reg s' k = reg s k).
Proof.
  intros Hne Hrn Ra Rb s'. subst s'. unfold _teq.
  change (ToString (index [Rd; VStr Rn; VNum op2] 1)) with Rn.
  change (index [Rd; VStr Rn; VNum op2] 2) with (VNum op2).
  rewrite (reg_lookup _ _ _ Hrn).
  rewrite ushr_0. unfold bxor. rewrite ToUint32_num, !ToInt32_num.
  change (strict_eq (VNum ?x) (VNum 0)) with (x =? 0).
  rewrite xor32_zero by assumption.
  split; [|split].
  - rewrite cpsr_bit_setZ by lia. reflexivity.
  - intros i Hi Hn. rewrite cpsr_bit_setZ by lia. unfold flag_written.
    replace (i =? 30) with false by (symmetry; apply Z.eqb_neq; lia). reflexivity.
  - intros k Hk. apply flag_setters_frame. exact Hk.
Qed.

Lemma teq_flags_witness :
  cpsr_bit (_teq [VStr "r0"; VStr "r1"; VNum 7]
              (set_reg "r1" (VNum 7) (new (fun _ => VNum 0)))) 30 = true.
Proof.
  exact (proj1 (teq_flags (set_reg "r1" (VNum 7) (new (fun _ => VNum 0)))
                  (VStr "r0") "r1" 7 7 ltac:(discriminate) ltac:(reflexivity)
                  ltac:(lia) ltac:(lia))).
Defined.

(** The move handler changes the destination key and [cpsr] and nothing
    else: every other register, [pc] included when the destination is not
    ["pc"], and the pipeline fields are unchanged.  A destination that is
    not yet a key of the register file is added to it. *)
Theorem mov_frame s (Rd : string) Rn op2 k :
  k <> Rd -> k <> "cpsr"%string ->
  let s' := _mov [VStr Rd; Rn; op2] s in
  reg s' k = reg s k /\ same_pipeline s s' /\ log s' = log s.
Proof.
  intros H1 H2 s'. subst s'. unfold _mov.
  change (ToString (index [VStr Rd; Rn; op2] 0)) with Rd.
  change (index [VStr Rd; Rn; op2] 2) with op2.
  split; [|split].
  - destruct (flag_setters_frame (set_reg Rd op2 s) (strict_eq op2 (VNum 0)) k H2)
      as (_ & -> & _).
    apply reg_set_reg_ne. congruence.
  - eapply same_pipeline_trans; [apply (set_reg_same_pipeline Rd op2)|].
    apply flag_setters_same_pipeline.
  - destruct (flag_setters_log (strict_eq op2 (VNum 0)) (set_reg Rd op2 s)) as (_ & -> & _).
    reflexivity.
Qed.

(** A move to [r15], which the constructor does not create, adds the key
    and leaves [pc] where it was. *)
Lemma mov_frame_witness :
  let s := new (fun _ => VNum 0) in
  let s' := _mov [VStr "r15"; VStr "r0"; VNum 64] s in
  reg s' "pc" = reg s "pc".
Proof.
  intros s s'.
  exact (proj1 (mov_frame s "r15" (VStr "r0") (VNum 64) "pc"
                  ltac:(discriminate) ltac:(discriminate))).
Defined.

(** The load handler with the pre-index flag clear does nothing at
    all. *)
Theorem ldr_post_indexed_noop s Rd Rn P offset :
  truthy P = false -> _ldr [Rd; Rn; P; offset] s = s.
Proof.
  intros H. unfold _ldr.
  change (index [Rd; Rn; P; offset] 2) with P. rewrite H. reflexivity.
Qed.

Lemma ldr_post_indexed_noop_witness :
  _ldr [VStr "r0"; VStr "r1"; VBool false; VNum 4] (new (fun _ => VNum 9))
  = new (fun _ => VNum 9).
Proof.
  exact (ldr_post_indexed_noop (new (fun _ => VNum 9)) (VStr "r0") (VStr "r1")
           (VBool false) (VNum 4) ltac:(reflexivity)).
Defined.

(** The pre-indexed load writes to the destination the word the memory
    returns for base + offset; flags, other registers and the pipeline
    fields are unchanged. *)
Theorem ldr_pre_indexed s (Rd Rn : string) base offset :
  Rd <> "cpsr"%string -> _r s !! Rn = Some (VNum base) ->
  let s' := _ldr [VStr Rd; VStr Rn; VBool true; VNum offset] s in
  reg s' Rd = _mmu s (VNum (base + offset))
  /\ (forall k, k <> Rd -> reg s' k = reg s k)
  /\ (forall i, cpsr_bit s' i = cpsr_bit s i)
  /\ same_pipeline s s'.
Proof.
  intros Hne Hb s'. subst s'. unfold _ldr.
  change (ToString (index [VStr Rd; VStr Rn; VBool true; VNum offset] 0)) with Rd.
  change (ToString (index [VStr Rd; VStr Rn; VBool true; VNum offset] 1)) with Rn.
  change (index [VStr Rd; VStr Rn; VBool true; VNum offset] 2) with (VBool true).
  change (index [VStr Rd; VStr Rn; VBool true; VNum offset] 3) with (VNum offset).
  change (truthy (VBool true)) with true. cbv iota.
  rewrite (reg_lookup _ _ _ Hb).
  change (add (VNum base) (VNum offset)) with (VNum (base + offset)).
  split; [|split; [|split]].
  - apply reg_set_reg.
  - intros k Hk. apply reg_set_reg_ne. congruence.
  - intros i. apply cpsr_bit_set_reg_ne. exact Hne.
  - apply set_reg_same_pipeline.
Qed.

Lemma ldr_pre_indexed_witness :
  let s := set_reg "r1" (VNum 0x100) (new (fun a => a)) in
  reg (_ldr [VStr "r0"; VStr "r1"; VBool true; VNum (-4)] s) "r0" = VNum 0xFC.
Proof.
  intros s.
  exact (proj1 (ldr_pre_indexed s "r0" "r1" 0x100 (-4)
                  ltac:(discriminate) ltac:(reflexivity))).
Defined.

(** A load whose base register is not a key of the register file, as
    [r15] is not in the file the constructor builds, reads [undefined] for
    the base, and the address handed to the memory is NaN. *)
Theorem ldr_missing_base s (Rd Rn : string) offset :
  _r s !! Rn = None ->
  reg (_ldr [VStr Rd; VStr Rn; VBool true; VNum offset] s) Rd = _mmu s VNaN.
Proof.
  intros Hb. unfold _ldr.
  change (ToString (index [VStr Rd; VStr Rn; VBool true; VNum offset] 0)) with Rd.
  change (ToString (index [VStr Rd; VStr Rn; VBool true; VNum offset] 1)) with Rn.
  change (index [VStr Rd; VStr Rn; VBool true; VNum offset] 2) with (VBool true).
  change (index [VStr Rd; VStr Rn; VBool true; VNum offset] 3) with (VNum offset).
  change (truthy (VBool true)) with true. cbv iota.
  unfold reg at 2. rewrite Hb.
  change (add (default VUndef None) (VNum offset)) with VNaN.
  apply reg_set_reg.
Qed.

Lemma ldr_missing_base_witness :
  reg (_ldr [VStr "r1"; VStr "r15"; VBool true; VNum (-4)] (new (fun a => a))) "r1"
  = VNaN.
Proof.
  exact (ldr_missing_base (new (fun a => a)) "r1" "r15" (-4) ltac:(reflexivity)).
Defined.

(** The branch handler sets [pc] to its operand and raises the latch; it
    changes no other register and no flag. *)
Theorem b_effect s addr rest :
  let s' := _b (addr :: rest) s in
  getPC s' = addr /\ _branched s' = VBool true
  /\ (forall k, k <> "pc"%string -> reg s' k = reg s k)
  /\ _fetched s' = _fetched s /\ _decoded s' = _decoded s /\ log s' = log s.
Proof.
  intros s'. subst s'. unfold _b, getPC.
  change (index (addr :: rest) 0) with addr.
  repeat split.
  - apply (reg_set_reg s "pc").
  - intros k Hk. apply (reg_set_reg_ne s "pc"). congruence.
Qed.

(** What the compare handler computes, for a register holding [rn]. *)
Lemma cmp_result s Rd (Rn : string) rn op2 :
  Rn <> "cpsr"%string -> _r s !! Rn = Some (VNum rn) ->
  nzcv (_cmp [Rd; VStr Rn; VNum op2] s)
  = (to_int32 (to_int32 rn - op2) <? 0, to_int32 rn - op2 =? 0,
     negb (rn <? op2), to_int32 rn - op2 <? - 2 ^ 31).
Proof.
  intros Hne Hrn. unfold _cmp.
  change (ToString (index [Rd; VStr Rn; VNum op2] 1)) with Rn.
  change (index [Rd; VStr Rn; VNum op2] 2) with (VNum op2).
  pose proof (reg_lookup _ _ _ Hrn) as Hreg. rewrite Hreg.
  change (Utils.toSigned (VNum rn)) with (VNum (to_int32 rn)).
  change (sub (VNum (to_int32 rn)) (VNum op2)) with (VNum (to_int32 rn - op2)).
  set (diff := to_int32 rn - op2).
  destruct (flag_setters_frame (_setN (lt (Utils.toSigned (VNum diff)) (VNum 0)) s)
              (strict_eq (VNum diff) (VNum 0)) Rn Hne) as (_ & HZ & _).
  destruct (flag_setters_frame s (lt (Utils.toSigned (VNum diff)) (VNum 0)) Rn Hne)
    as (HN & _).
  rewrite HZ, HN, Hreg.
  change (gt (VNum op2) (VNum rn)) with (rn <? op2).
  change (lt (Utils.toSigned (VNum diff)) (VNum 0)) with (to_int32 diff <? 0).
  change (strict_eq (VNum diff) (VNum 0)) with (diff =? 0).
  change (lt (VNum diff) (VNum (-2147483648))) with (diff <? - 2 ^ 31).
  unfold nzcv.
  repeat (rewrite ?cpsr_bit_setV, ?cpsr_bit_setC, ?cpsr_bit_setZ, ?cpsr_bit_setN by lia;
          unfold flag_written; simpl (_ =? _); cbv iota).
  reflexivity.
Qed.

(** For an operand below 2^31, where the raw and the signed reading of
    the operand coincide, the compare handler sets the four flags as the
    signed compare law has them. *)
Theorem cmp_small_operand s Rd (Rn : string) rn op2 :
  Rn <> "cpsr"%string -> _r s !! Rn = Some (VNum rn) -> 0 <= op2 < 2 ^ 31 ->
  nzcv (_cmp [Rd; VStr Rn; VNum op2] s) = cmp_flags_claimed rn op2.
Proof.
  intros Hne Hrn Hop. rewrite (cmp_result s Rd Rn rn op2 Hne Hrn).
  unfold cmp_flags_claimed. rewrite (to_int32_small op2) by lia.
  rewrite Z.gtb_ltb. reflexivity.
Qed.

Lemma cmp_small_operand_witness :
  nzcv (_cmp [VStr "r0"; VStr "r1"; VNum 3]
          (set_reg "r1" (VNum 0xFFFFFFFF) (new (fun _ => VNum 0))))
  = cmp_flags_claimed 0xFFFFFFFF 3.
Proof.
  exact (cmp_small_operand (set_reg "r1" (VNum 0xFFFFFFFF) (new (fun _ => VNum 0)))
           (VStr "r0") "r1" 0xFFFFFFFF 3
           ltac:(discriminate) ltac:(reflexivity) ltac:(lia)).
Defined.

(** A register holding the same 32-bit word as the operand compares
    equal only below 2^31: from 2^31 on the handler leaves Zero clear. *)
Theorem cmp_equal_words s Rd (Rn : string) v :
  Rn <> "cpsr"%string -> _r s !! Rn = Some (VNum v) -> 0 <= v < 2 ^ 32 ->
  cpsr_bit (_cmp [Rd; VStr Rn; VNum v] s) 30 = (v <? 2 ^ 31).
Proof.
  intros Hne Hrn Hv.
  assert (cpsr_bit (_cmp [Rd; VStr Rn; VNum v] s) 30 = (to_int32 v - v =? 0)) as E.
  { pose proof (cmp_result s Rd Rn v v Hne Hrn) as H. unfold nzcv in H.
    exact (f_equal (fun t => snd (fst (fst t))) H). }
  rewrite E.
  destruct (Z.ltb_spec v (2 ^ 31)).
  - rewrite to_int32_small by lia. apply Z.eqb_eq. lia.
  - apply Z.eqb_neq. unfold to_int32.
    replace ((v + 2 ^ 31) mod 2 ^ 32) with (v - 2 ^ 31).
    + lia.
    + apply Z.mod_unique with (q := 1); lia.
Qed.

Lemma cmp_equal_words_witness :
  cpsr_bit (_cmp [VStr "r0"; VStr "r1"; VNum 5]
              (set_reg "r1" (VNum 5) (new (fun _ => VNum 0)))) 30 = true.
Proof.
  exact (cmp_equal_words (set_reg "r1" (VNum 5) (new (fun _ => VNum 0)))
           (VStr "r0") "r1" 5 ltac:(discriminate) ltac:(reflexivity) ltac:(lia)).
Defined.


(** * Further properties of the pipeline *)

Lemma fetch_keeps_registers s k :
  k <> "pc"%string -> reg (_fetch s) k = reg s k.
Proof.
  intros Hk. unfold _fetch.
  rewrite reg_set_reg_ne by congruence.
  destruct (truthy (_branched s)); [|reflexivity].
  apply (reg_set_reg_ne (with_branched (VBool false) s) "pc"). congruence.
Qed.

(** Every fetch advances [pc] by 4, and by 4 more when it consumes the
    latch left by an executed branch; no fetch leaves the latch set, and
    no fetch changes another register. *)
Theorem fetch_advances_pc s n :
  reg s "pc" = VNum n ->
  getPC (_fetch s) = VNum (if truthy (_branched s) then n + 8 else n + 4)
  /\ truthy (_branched (_fetch s)) = false
  /\ forall k, k <> "pc"%string -> reg (_fetch s) k = reg s k.
Proof.
  intros Hpc. split; [|split].
  - unfold getPC. rewrite fetch_pc, Hpc.
    destruct (truthy (_branched s)).
    + change (VNum (n + 4 + 4) = VNum (n + 8)). f_equal. lia.
    + reflexivity.
  - apply fetch_consumes_latch.
  - intros k Hk. apply fetch_keeps_registers. exact Hk.
Qed.

Lemma fetch_advances_pc_witness :
  getPC (_fetch (with_branched (VBool true) (new (fun _ => VNum 0)))) = VNum 8.
Proof.
  exact (proj1 (fetch_advances_pc (with_branched (VBool true) (new (fun _ => VNum 0))) 0
                  ltac:(reflexivity))).
Defined.

(** On an empty pipeline [execute] executes and decodes nothing: it is a
    single fetch.  On a new core it reads address 0 and leaves [pc] at
    4. *)
Theorem execute_on_empty_pipeline s :
  _decoded s = None -> _fetched s = None ->
  execute s = Normal (_fetch s) /\ _decoded (_fetch s) = None.
Proof.
  intros Hd Hf. unfold execute. rewrite (execute_empty s Hd).
  unfold _decode. rewrite Hf. split; [reflexivity|].
  rewrite (proj1 (fetch_keeps_decoded s)). exact Hd.
Qed.

Lemma execute_on_empty_pipeline_witness :
  execute (new (fun _ => VNum 7)) = Normal (_fetch (new (fun _ => VNum 7)))
  /\ _decoded (_fetch (new (fun _ => VNum 7))) = None.
Proof.
  exact (execute_on_empty_pipeline (new (fun _ => VNum 7)) ltac:(reflexivity)
           ltac:(reflexivity)).
Defined.

Lemma handler_keeps_decoded h args s :
  h = _nop \/ h = _b \/ h = _cmp \/ h = _mov \/ h = _ldr \/ h = _teq ->
  _decoded (h args s) = _decoded s.
Proof.
  intros [-> | [-> | [-> | [-> | [-> | ->]]]]].
  - reflexivity.
  - reflexivity.
  - unfold _cmp. cbv zeta.
    repeat match goal with
           | |- context [_setV ?b ?t] =>
               destruct (flag_setters_same_pipeline b t) as (_ & _ & _ & (_ & _ & -> & _))
           | |- context [_setC ?b ?t] =>
               destruct (flag_setters_same_pipeline b t) as (_ & _ & (_ & _ & -> & _) & _)
           | |- context [_setZ ?b ?t] =>
               destruct (flag_setters_same_pipeline b t) as (_ & (_ & _ & -> & _) & _)
           | |- context [_setN ?b ?t] =>
               destruct (flag_setters_same_pipeline b t) as ((_ & _ & -> & _) & _)
           end.
    reflexivity.
  - unfold _mov, _setZ. destruct (strict_eq _ _); reflexivity.
  - unfold _ldr. destruct (truthy _); reflexivity.
  - unfold _teq, _setZ. destruct (strict_eq _ _); reflexivity.
Qed.

Lemma execute_leaves_operands s d :
  _decoded s = Some d -> _decoded (_execute s) = Some (drop 2 d).
Proof.
  intros Hd. unfold _execute. rewrite Hd.
  replace (drop 2 d) with (drop 1 (drop 1 d)) by (rewrite drop_drop; reflexivity).
  destruct (_opcodes _) as [h|] eqn:E; [|reflexivity].
  apply opcodes_cases in E.
  rewrite (handler_keeps_decoded h _ _ E). reflexivity.
Qed.

(** The execute phase takes [pc] and [op] off the descriptor array and
    leaves the operands in the slot; no handler touches the slot. *)
Theorem execute_splices s d :
  _decoded s = Some d -> _decoded (_execute s) = Some (drop 2 d).
Proof. apply execute_leaves_operands. Qed.

Lemma execute_splices_witness :
  let s := with_decoded (Some [VNum 0; VStr "mov"; VStr "r0"; VStr "r0"; VNum 1])
             (new (fun _ => VNum 0)) in
  _decoded (_execute s) = Some [VStr "r0"; VStr "r0"; VNum 1].
Proof.
  intros s.
  exact (execute_splices s [VNum 0; VStr "mov"; VStr "r0"; VStr "r0"; VNum 1]
           ltac:(reflexivity)).
Defined.

(** No register name is a key of the dispatch table, and neither is the
    key that an absent tag converts to. *)
Lemma opcodes_register_key x : _opcodes ("r" +:+ x) = None.
Proof.
  unfold _opcodes.
  assert (forall t : string,
             match t with String c _ => Some c | EmptyString => None end
             <> match ("r" +:+ x)%string with String c _ => Some c | EmptyString => None end ->
             bool_decide (("r" +:+ x)%string = t) = false) as ne.
  { intros t Hc. apply bool_decide_eq_false. intros E. apply Hc. rewrite E. reflexivity. }
  rewrite !ne by (simpl; discriminate). reflexivity.
Qed.

(** A descriptor is executed at most once.  If [execute] runs again on
    the operands left in the slot, as happens when the decode phase has
    thrown in between, no handler is found: the call only emits an
    informational event and changes no register, no flag and no latch. *)
Theorem descriptor_executed_once s d :
  descriptor d -> _decoded s = Some d ->
  let s1 := _execute s in
  let s2 := _execute s1 in
  _r s2 = _r s1 /\ _branched s2 = _branched s1 /\ _fetched s2 = _fetched s1
  /\ exists msg, log s2 = log s1 ++ [Info msg].
Proof.
  intros Hdesc Hd s1 s2. subst s2.
  pose proof (execute_leaves_operands s d Hd) as H1. fold s1 in H1. clearbody s1.
  destruct Hdesc as [pc | pc t | pc op rd rn op2 Hop | pc op rd rn p off Hop];
    simpl in H1.
  - unfold _execute. rewrite H1. repeat split. eexists. reflexivity.
  - unfold _execute. rewrite H1. repeat split. eexists. reflexivity.
  - rewrite (execute_descriptor s1 _ _ _ H1).
    destruct (regName_key rn) as [x ->]. rewrite opcodes_register_key.
    repeat split. eexists. reflexivity.
  - rewrite (execute_descriptor s1 _ _ _ H1).
    destruct (regName_key rn) as [x ->]. rewrite opcodes_register_key.
    repeat split. eexists. reflexivity.
Qed.

Lemma descriptor_executed_once_witness :
  let s := with_decoded (Some [VNum 0; VStr "b"; VNum 64]) (new (fun _ => VNum 0)) in
  _r (_execute (_execute s)) = _r (_execute s).
Proof.
  intros s.
  exact (proj1 (descriptor_executed_once s [VNum 0; VStr "b"; VNum 64]
                  (DBranch (VNum 0) (VNum 64)) ltac:(reflexivity))).
Defined.

(** ** A failed decode stops the pipeline *)

Lemma execute_throws s f evs msg :
  _fetched s = Some f -> decode_fetched f = (evs, Throw msg) ->
  exists s', execute s = Abrupt msg s' /\ _fetched s' = Some f.
Proof.
  intros Hf Hd.
  destruct (execute_keeps_fetched s) as (Fe & _). rewrite Hf in Fe.
  exists (emit_all evs (_execute s)). split.
  - unfold execute. rewrite (decode_phase_throws _ _ _ _ Fe Hd). reflexivity.
  - destruct (emit_all_same_pipeline evs (_execute s)) as (_ & -> & _). exact Fe.
Qed.

(** When the decode phase throws, [execute] throws before its fetch, so
    the fetch slot keeps the offending record: however often the host
    calls [execute] again, every call throws the same error and no
    further word is fetched. *)
Theorem decode_failure_is_permanent s f evs msg (n : nat) :
  _fetched s = Some f -> decode_fetched f = (evs, Throw msg) ->
  exists s', Nat.iter n resume (execute s) = Abrupt msg s' /\ _fetched s' = Some f.
Proof.
  intros Hf Hd. induction n as [|n (s' & E & F)].
  - simpl. apply (execute_throws s f evs msg Hf Hd).
  - simpl. rewrite E. simpl. apply (execute_throws s' f evs msg F Hd).
Qed.

Lemma decode_failure_is_permanent_witness :
  let s := with_fetched (Some [VNum 0x01200000; VNum 0])
             (set_reg "pc" (VNum 0x01200004) (new (fun _ => VNum 0))) in
  exists s', Nat.iter 3 resume (execute s) = Abrupt "TODO: Op2 is a register" s'
             /\ _fetched s' = Some [VNum 0x01200000; VNum 0].
Proof.
  intros s.
  exact (decode_failure_is_permanent s [VNum 0x01200000; VNum 0] []
           "TODO: Op2 is a register" 3 ltac:(reflexivity)
           ltac:(vm_compute; reflexivity)).
Defined.

(** ** Running from a new core *)

(** The decode phase hands the fetch address to [decode] as the word
    and the fetched word as the program counter.  An address below 2^21
    is a class-0 word with opcode field 0, so it decodes to the unknown
    descriptor, whatever word was fetched. *)
Lemma decode_low_address a word :
  0 <= a < 2 ^ 21 ->
  decode_fetched [VNum a; word]
  = ([ErrorUnknownDataProc (VNum 0)], Ok [word; VStr "???"]).
Proof.
  intros Ha. unfold decode_fetched.
  change (index [VNum a; word] 0) with (VNum a).
  change (index [VNum a; word] 1) with word.
  assert (class_of a = 0) as Hc.
  { unfold class_of. rewrite Z.shiftr_div_pow2, Z.div_small by lia. reflexivity. }
  assert (opcode_of a = 0) as Ho.
  { unfold opcode_of. rewrite Z.shiftr_div_pow2, Z.div_small by lia. reflexivity. }
  rewrite even_class_unknown by (try tauto; lia).
  rewrite Ho. reflexivity.
Qed.

(** The state of the pipeline between two steps of a sequential run:
    [pc] is [n], the last fetch was made at [n - 4], an unknown descriptor
    is waiting, and no other register has changed since construction. *)
Definition sequential (MMU : value -> value) (n : Z) (s : ARM7TDMI) : Prop :=
  reg s "pc" = VNum n
  /\ truthy (_branched s) = false
  /\ (exists w, _decoded s = Some [w; VStr "???"])
  /\ _fetched s = Some [VNum (n - 4); MMU (VNum (n - 4))]
  /\ _mmu s = MMU
  /\ forall k, k <> "pc"%string -> reg s k = reg (new MMU) k.

Lemma sequential_fetch MMU n s w :
  reg s "pc" = VNum n -> truthy (_branched s) = false ->
  _decoded s = Some [w; VStr "???"] -> _mmu s = MMU ->
  (forall k, k <> "pc"%string -> reg s k = reg (new MMU) k) ->
  sequential MMU (n + 4) (_fetch s).
Proof.
  intros Hpc Hl Hd Hm Hr.
  assert (forall d', _decoded s = Some d' -> index d' 1 <> VStr "b") as NB.
  { intros d' E. rewrite Hd in E.
    assert (d' = [w; VStr "???"]) as -> by exact (f_equal (default d') (eq_sym E)).
    intros C. apply strict_eq_tag in C. discriminate C. }
  unfold sequential. repeat split.
  - rewrite fetch_pc, Hl, Hpc. reflexivity.
  - apply fetch_consumes_latch.
  - exists w. rewrite (proj1 (fetch_keeps_decoded s)). exact Hd.
  - rewrite (fetch_sequential s NB Hl), Hpc, Hm.
    replace (n + 4 - 4) with n by lia. reflexivity.
  - rewrite (proj2 (fetch_keeps_decoded s)). exact Hm.
  - intros k Hk. rewrite fetch_keeps_registers by exact Hk. apply Hr. exact Hk.
Qed.

Lemma sequential_boot MMU :
  exists s, boot (new MMU) = Normal s /\ sequential MMU 8 s.
Proof.
  destruct (first_fetch MMU) as (Fa & Pa & La & Ma).
  set (sa := _fetch (new MMU)) in *.
  pose proof (decode_low_address 0 (MMU (VNum 0)) ltac:(lia)) as Hd.
  set (sb := with_decoded (Some [MMU (VNum 0); VStr "???"])
               (emit_all [ErrorUnknownDataProc (VNum 0)] sa)).
  exists (_fetch sb). split.
  - unfold boot. fold sa. rewrite (decode_phase_returns sa _ _ _ Fa Hd). reflexivity.
  - apply (sequential_fetch MMU 4 sb (MMU (VNum 0))); try reflexivity; try assumption.
    intros k Hk. change (reg sb k) with (reg sa k).
    unfold sa. apply fetch_keeps_registers. exact Hk.
Qed.

Lemma sequential_step MMU n s :
  0 <= n - 4 < 2 ^ 21 -> sequential MMU n s ->
  exists s', execute s = Normal s' /\ sequential MMU (n + 4) s'.
Proof.
  intros Hn (Hpc & Hl & (w & Hd) & Hf & Hm & Hr).
  pose proof (execute_descriptor s w (VStr "???") [] Hd) as E.
  change (_opcodes (ToString (VStr "???"))) with (Some _nop) in E. unfold _nop in E.
  pose proof (decode_low_address (n - 4) (MMU (VNum (n - 4))) Hn) as Hdec.
  set (se := _execute s) in *.
  assert (_fetched se = Some [VNum (n - 4); MMU (VNum (n - 4))]) as Fe
      by (rewrite E; exact Hf).
  set (sc := with_decoded (Some [MMU (VNum (n - 4)); VStr "???"])
               (emit_all [ErrorUnknownDataProc (VNum 0)] se)).
  exists (_fetch sc). split.
  - unfold execute. fold se. rewrite (decode_phase_returns se _ _ _ Fe Hdec). reflexivity.
  - apply (sequential_fetch MMU n sc (MMU (VNum (n - 4)))).
    + change (reg sc "pc") with (reg se "pc"). rewrite E. exact Hpc.
    + change (_branched sc) with (_branched se). rewrite E. exact Hl.
    + reflexivity.
    + change (_mmu sc) with (_mmu se). rewrite E. exact Hm.
    + intros k Hk. change (reg sc k) with (reg se k). rewrite E. apply Hr. exact Hk.
Qed.

(** Whatever the memory holds, [boot] and then [k] steps on a new core
    return normally as long as the addresses decoded stay below 2^21:
    [pc] is then [8 + 4k], the last fetch was made at [4 + 4k], and no
    other register, [cpsr] included, has changed since construction. *)
Theorem sequential_run (MMU : value -> value) (k : nat) :
  4 * Z.of_nat k < 2 ^ 21 ->
  exists s,
    steps k (boot (new MMU)) = Normal s
    /\ getPC s = VNum (8 + 4 * Z.of_nat k)
    /\ fetch_address s = Some (VNum (4 + 4 * Z.of_nat k))
    /\ forall key, key <> "pc"%string -> reg s key = reg (new MMU) key.
Proof.
  intros Hk.
  assert (exists s, steps k (boot (new MMU)) = Normal s
                    /\ sequential MMU (8 + 4 * Z.of_nat k) s) as (s & E & I).
  { induction k as [|k IH].
    - simpl. apply sequential_boot.
    - destruct IH as (s & E & I); [lia|].
      destruct (sequential_step MMU (8 + 4 * Z.of_nat k) s ltac:(lia) I) as (s' & E' & I').
      exists s'. split.
      + change (steps (S k) (boot (new MMU)))
          with (andThen (steps k (boot (new MMU))) execute).
        rewrite E. exact E'.
      + replace (8 + 4 * Z.of_nat (S k)) with (8 + 4 * Z.of_nat k + 4) by lia. exact I'. }
  exists s. destruct I as (Hpc & _ & _ & Hf & _ & Hr).
  split; [exact E|]. split; [exact Hpc|]. split; [|exact Hr].
  unfold fetch_address. rewrite Hf.
  change (Some (VNum (8 + 4 * Z.of_nat k - 4)) = Some (VNum (4 + 4 * Z.of_nat k))).
  do 2 f_equal. lia.
Qed.

Lemma sequential_run_witness :
  exists s,
    steps 3 (boot (new (fun _ => VNum 0xE3A00001))) = Normal s
    /\ getPC s = VNum 20 /\ reg s "r0" = VNum 0.
Proof.
  destruct (sequential_run (fun _ => VNum 0xE3A00001) 3 ltac:(lia))
    as (s & H1 & H2 & _ & H3).
  exists s. split; [exact H1|]. split; [exact H2|].
  exact (H3 "r0"%string ltac:(discriminate)).
Defined.


Lemma branch_offset_forward_witness :
  Decoder.decode (VNum 0xEA000002) (VNum 0)
  = ([], Ok [VNum 0; VStr "b"; VNum (0 + 8 + 4 * sign_extend_24 (offset24 0xEA000002))]).
Proof.
  apply (branch_offset_forward 0xEA000002 0).
  - lia.
  - reflexivity.
  - vm_compute. reflexivity.
Defined.
